(** * The chunked downloader of the MTA data skill

    A shallow embedding of [skills/mta-data/scripts/download-dataset.ts]:
    the row-count estimator [countRows], the metadata fetch
    [fetchMetadata], the confirmation prompt [confirmDownload] and the
    paginated download loop of [downloadDataset], run from the top-level
    [main] block of the script.

    Effects are threaded through a small state/exit/exception monad whose
    state is the observable trace (requests, prompts, progress lines, log
    lines) together with the content of the destination file. The remote
    portal and the operator are an environment record [Env]. The
    [while (true)] loop is given fuel. *)

From Stdlib Require Import ZArith List String Ascii Bool Lia.
From Stdlib Require Import DecimalString.
Import ListNotations.
Set Warnings "-register-all".

Open Scope string_scope.
Open Scope Z_scope.

(** ** JavaScript values *)

(** Numbers as the script sees them: integers, or [NaN] from [parseInt]. *)
Inductive num := Num (z : Z) | NaN.

Definition num_truthy (n : num) : bool :=
  match n with Num z => negb (z =? 0) | NaN => false end.

(** [n > k]: comparisons with [NaN] are false. *)
Definition num_gt (n : num) (k : Z) : bool :=
  match n with Num z => k <? z | NaN => false end.

(** Values produced by [JSON.parse] (numbers restricted to integers). *)
Inductive jval :=
| JNull
| JBool (b : bool)
| JNum (z : Z)
| JStr (s : string)
| JArr (l : list jval)
| JObj (fields : list (string * jval)).

(** Property lookup; [JSON.parse] keeps the last of duplicate keys. *)
Fixpoint prop (fs : list (string * jval)) (k : string) : option jval :=
  match fs with
  | [] => None
  | (k', v) :: rest =>
      match prop rest k with
      | Some w => Some w
      | None => if String.eqb k k' then Some v else None
      end
  end.

(** [v.k] on a non-null value; [None] is [undefined]. *)
Definition get (v : jval) (k : string) : option jval :=
  match v with JObj fs => prop fs k | _ => None end.

Definition jtruthy (v : jval) : bool :=
  match v with
  | JNull => false
  | JBool b => b
  | JNum z => negb (z =? 0)
  | JStr s => negb (String.eqb s "")
  | JArr _ | JObj _ => true
  end.

Definition chr (n : nat) : string := String (ascii_of_nat n) EmptyString.
Definition nl : string := chr 10.
Definition dquote : string := chr 34.

Definition z_to_string (z : Z) : string := NilZero.string_of_int (Z.to_int z).

(** [String(v)], the coercion [parseInt] applies to its argument. *)
Fixpoint js_to_string (v : jval) : string :=
  match v with
  | JNull => "null"
  | JBool b => if b then "true" else "false"
  | JNum z => z_to_string z
  | JStr s => s
  | JArr l =>
      String.concat ","
        (map (fun x => match x with JNull => "" | _ => js_to_string x end) l)
  | JObj _ => "[object Object]"
  end.

Definition hex_digit (n : nat) : string :=
  if (n <? 10)%nat then chr (48 + n) else chr (87 + n).

(** The string escaping of [JSON.stringify]. *)
Definition escape_char (c : ascii) : string :=
  let n := nat_of_ascii c in
  if (n =? 34)%nat then "\" ++ dquote
  else if (n =? 92)%nat then "\\"
  else if (n =? 8)%nat then "\b"
  else if (n =? 12)%nat then "\f"
  else if (n =? 10)%nat then "\n"
  else if (n =? 13)%nat then "\r"
  else if (n =? 9)%nat then "\t"
  else if (n <? 32)%nat then "\u00" ++ hex_digit (n / 16) ++ hex_digit (n mod 16)
  else String c EmptyString.

Fixpoint escape (s : string) : string :=
  match s with
  | EmptyString => ""
  | String c rest => escape_char c ++ escape rest
  end.

Definition quote (s : string) : string := dquote ++ escape s ++ dquote.

(** [JSON.stringify] of a parsed value. *)
Fixpoint stringify (v : jval) : string :=
  match v with
  | JNull => "null"
  | JBool b => if b then "true" else "false"
  | JNum z => z_to_string z
  | JStr s => quote s
  | JArr l => "[" ++ String.concat "," (map stringify l) ++ "]"
  | JObj fs =>
      "{" ++ String.concat ","
               (map (fun '(k, x) => quote k ++ ":" ++ stringify x) fs) ++ "}"
  end.

(** [s.split('\n')]. *)
Fixpoint split_nl (s : string) : list string :=
  match s with
  | EmptyString => [""]
  | String c rest =>
      if Ascii.eqb c (ascii_of_nat 10) then "" :: split_nl rest
      else match split_nl rest with
           | h :: t => String c h :: t
           | [] => [String c EmptyString]
           end
  end.

(** [parseInt(s, 10)]: leading white space, an optional sign, then the
    longest prefix of decimal digits; [NaN] when there is none. The
    characters are ASCII, and [is_js_space] is the white space of
    JavaScript on them (the non-ASCII spaces such as U+00A0 are not
    modelled). The result is the exact integer, which the number that
    [parseInt] returns equals only below 2^53. *)
Definition is_js_space (c : ascii) : bool :=
  let n := nat_of_ascii c in ((n =? 32) || ((9 <=? n) && (n <=? 13)))%nat.

Fixpoint trim_start (s : string) : string :=
  match s with
  | String c rest => if is_js_space c then trim_start rest else s
  | EmptyString => EmptyString
  end.

Definition digit_val (c : ascii) : option Z :=
  let n := nat_of_ascii c in
  if ((48 <=? n) && (n <=? 57))%nat then Some (Z.of_nat n - 48) else None.

Fixpoint parse_digits (s : string) (acc : option Z) : option Z :=
  match s with
  | EmptyString => acc
  | String c rest =>
      match digit_val c with
      | Some d =>
          parse_digits rest (Some (10 * match acc with Some a => a | None => 0 end + d))
      | None => acc
      end
  end.

Definition parseInt10 (s : string) : num :=
  let s := trim_start s in
  let '(sign, body) :=
    match s with
    | String c rest =>
        if Ascii.eqb c "-"%char then (-1, rest)
        else if Ascii.eqb c "+"%char then (1, rest)
        else (1, s)
    | EmptyString => (1, s)
    end in
  match parse_digits body None with
  | Some z => Num (sign * z)
  | None => NaN
  end.

(** [s.toLowerCase()] on ASCII text. *)
Definition lower_char (c : ascii) : ascii :=
  let n := nat_of_ascii c in
  if ((65 <=? n) && (n <=? 90))%nat then ascii_of_nat (n + 32) else c.

Fixpoint to_lower (s : string) : string :=
  match s with
  | EmptyString => EmptyString
  | String c rest => String (lower_char c) (to_lower rest)
  end.

(** ** HTTP responses *)

(** A response as the script sees it: a transport error ([on('error')]),
    or the body run through [JSON.parse] ([None]: the parse throws). *)
Inductive http_resp :=
| HttpError (msg : string)
| HttpBody (parsed : option jval).

(** Settled promises. *)
Inductive result (A : Type) :=
| Rejected (msg : string)
| Resolved (a : A).
Arguments Rejected {A} msg.
Arguments Resolved {A} a.

(** ** [countRows] *)

(** [result[0]]: [None] is a [TypeError] (indexing [null]), [Some None]
    is [undefined]. *)
Definition index0 (v : jval) : option (option jval) :=
  match v with
  | JNull => None
  | JArr (x :: _) => Some (Some x)
  | JArr [] => Some None
  | JObj fs => Some (prop fs "0")
  | JStr (String c _) => Some (Some (JStr (String c EmptyString)))
  | _ => Some None
  end.

(** [first?.count] *)
Definition count_field (first : option jval) : option jval :=
  match first with Some v => get v "count" | None => None end.

(** [parseInt(result[0]?.count || '0', 10)] *)
Definition countRows (resp : http_resp) : result num :=
  match resp with
  | HttpError m => Rejected m
  | HttpBody None => Rejected "SyntaxError"
  | HttpBody (Some v) =>
      match index0 v with
      | None => Rejected "TypeError"
      | Some first =>
          let c := match count_field first with
                   | Some x => if jtruthy x then x else JStr "0"
                   | None => JStr "0"
                   end in
          Resolved (parseInt10 (js_to_string c))
      end
  end.

(** ** [fetchMetadata] *)

(** Each field is [undefined] ([None]) or a value. *)
Record Column := {
  fieldName : option jval;
  col_name : option jval;
  dataTypeName : option jval
}.

Record DatasetMetadata := {
  md_name : option jval;
  columns : list Column
}.

Definition to_column (c : jval) : result Column :=
  match c with
  | JNull => Rejected "TypeError"
  | _ => Resolved {| fieldName := get c "fieldName"; col_name := get c "name";
                     dataTypeName := get c "dataTypeName" |}
  end.

Fixpoint map_columns (l : list jval) : result (list Column) :=
  match l with
  | [] => Resolved []
  | c :: rest =>
      match to_column c, map_columns rest with
      | Resolved c', Resolved cs => Resolved (c' :: cs)
      | Rejected m, _ => Rejected m
      | _, Rejected m => Rejected m
      end
  end.

(** Any exception inside the [try] becomes "Failed to parse metadata";
    [(metadata.columns || []).map] throws unless it is an array. *)
Definition fetchMetadata (resp : http_resp) : result DatasetMetadata :=
  match resp with
  | HttpError m => Rejected m
  | HttpBody None => Rejected "Failed to parse metadata"
  | HttpBody (Some JNull) => Rejected "Failed to parse metadata"
  | HttpBody (Some v) =>
      let cols := match get v "columns" with
                  | Some c => if jtruthy c then c else JArr []
                  | None => JArr []
                  end in
      match cols with
      | JArr l =>
          match map_columns l with
          | Resolved cs => Resolved {| md_name := get v "name"; columns := cs |}
          | Rejected _ => Rejected "Failed to parse metadata"
          end
      | _ => Rejected "Failed to parse metadata"
      end
  end.

(** [x.includes(needle)] on a string or an array; anything else has no
    [includes] method. *)
Definition includes (v : option jval) (needle : string) : result bool :=
  match v with
  | Some (JStr s) =>
      Resolved (match String.index 0 needle s with Some _ => true | None => false end)
  | Some (JArr l) =>
      Resolved (existsb (fun x => match x with JStr t => String.eqb t needle | _ => false end) l)
  | _ => Rejected "TypeError"
  end.

(** The filter predicate for date columns. *)
Definition is_date_column (c : Column) : result bool :=
  let calendar := match dataTypeName c with
                  | Some (JStr t) => String.eqb t "calendar_date"
                  | _ => false
                  end in
  if calendar then Resolved true else
  match includes (fieldName c) "date" with
  | Resolved true => Resolved true
  | Resolved false => includes (fieldName c) "time"
  | Rejected m => Rejected m
  end.

Fixpoint date_columns (cs : list Column) : result (list Column) :=
  match cs with
  | [] => Resolved []
  | c :: rest =>
      match is_date_column c with
      | Rejected m => Rejected m
      | Resolved b =>
          match date_columns rest with
          | Rejected m => Rejected m
          | Resolved ds => Resolved (if b then c :: ds else ds)
          end
      end
  end.

(** [answer.toLowerCase() === 'y' || answer.toLowerCase() === 'yes'] *)
Definition is_yes (answer : string) : bool :=
  String.eqb (to_lower answer) "y" || String.eqb (to_lower answer) "yes".

(** ** The effect monad *)

(** Observable events, in the order they happen. Interpolated log text
    ([toLocaleString], [toFixed]) is not rendered: a progress line carries
    the committed counter and, when it is shown, the known total. *)
Inductive Event :=
| ELog (msg : string)
| EGetMetadata (datasetId : string)
| ECountRows
| EPrompt (rowCount : num)
| EOpen (path : string)
| EFetch (limit offset : Z)
| EProgress (downloaded : Z) (total : option Z)
| EComplete (downloaded : Z).

(** The trace, and the destination file as written by the routine
    ([None]: not created or truncated by it). *)
Record St := { trace : list Event; file : option string }.

Inductive Res (A : Type) :=
| Ok (a : A) (s : St)
| Exit (code : Z) (s : St)
| Throw (msg : string) (s : St)
| OutOfFuel (s : St).
Arguments Ok {A} a s.
Arguments Exit {A} code s.
Arguments Throw {A} msg s.
Arguments OutOfFuel {A} s.

Definition M (A : Type) := St -> Res A.

Definition ret {A} (a : A) : M A := fun s => Ok a s.

Definition bind {A B} (m : M A) (k : A -> M B) : M B :=
  fun s => match m s with
           | Ok a s' => k a s'
           | Exit c s' => Exit c s'
           | Throw e s' => Throw e s'
           | OutOfFuel s' => OutOfFuel s'
           end.

Notation "x <- m ;; k" := (bind m (fun x => k))
  (at level 61, m at next level, right associativity).
Notation "m ;; k" := (bind m (fun _ => k))
  (at level 61, right associativity).

Definition emit (e : Event) : M unit :=
  fun s => Ok tt {| trace := (trace s ++ [e])%list; file := file s |}.

(** [fs.createWriteStream(path)]: creates or truncates the file. *)
Definition open_file (path : string) : M unit :=
  fun s => Ok tt {| trace := (trace s ++ [EOpen path])%list; file := Some "" |}.

Definition write (str : string) : M unit :=
  fun s => Ok tt {| trace := trace s; file := option_map (fun f => f ++ str) (file s) |}.

Definition throw {A} (msg : string) : M A := fun s => Throw msg s.

(** [process.exit(code)] *)
Definition exit {A} (code : Z) : M A := fun s => Exit code s.

(** [await] of a settled promise. *)
Definition await {A} (r : result A) : M A :=
  match r with Rejected m => throw m | Resolved a => ret a end.

(** ** The request and the world *)

Inductive Format := csv | json.

Record CliArgs := {
  datasetId : string;
  format : Format;
  output : string;
  limit : option Z;
  where_ : option string;
  select : option string;
  order : option string;
  chunkSize : Z;
  noConfirm : bool
}.

(** The portal and the operator for one request. A page request is given
    by its [$limit] and [$offset]; a JSON page is the result of
    [JSON.parse] on its body, a CSV page the body text. *)
Record Env := {
  metadata_resp : http_resp;
  count_resp : http_resp;
  answer : string;
  json_page : Z -> Z -> option jval;
  csv_page : Z -> Z -> string
}.

Definition limit_truthy (a : CliArgs) : bool :=
  match limit a with Some z => negb (z =? 0) | None => false end.

Definition where_truthy (a : CliArgs) : bool :=
  match where_ a with Some w => negb (String.eqb w "") | None => false end.

(** [async function confirmDownload(rowCount)] *)
Definition confirmDownload (env : Env) (rowCount : num) : M bool :=
  emit (EPrompt rowCount) ;; ret (is_yes (answer env)).

(** ** The download loop *)

(** The total shown by the progress line and used to cap pages: the value
    of [rowsToDownload] when it is truthy. *)
Definition known_total (rowsToDownload : option num) : option Z :=
  match rowsToDownload with
  | Some (Num t) => if t =? 0 then None else Some t
  | _ => None
  end.

(** [Math.min(args.chunkSize, rowsToDownload ? rowsToDownload - downloadedRows : args.chunkSize)] *)
Definition page_limit (a : CliArgs) (rowsToDownload : option num) (downloaded : Z) : Z :=
  Z.min (chunkSize a)
    (match known_total rowsToDownload with
     | Some t => t - downloaded
     | None => chunkSize a
     end).

Record LoopState := mkLoopState {
  offset : Z;
  downloadedRows : Z;
  isFirstChunk : bool
}.

(** [rows.forEach((row, index) => ...)] in JSON mode; returns the new
    [isFirstChunk]. *)
Fixpoint write_rows (isFirst : bool) (index : nat) (rows : list jval) : M bool :=
  match rows with
  | [] => ret isFirst
  | row :: rest =>
      (if negb isFirst || (0 <? index)%nat then write ("," ++ nl) else ret tt) ;;
      write ("  " ++ stringify row) ;;
      write_rows false (S index) rest
  end.

(** The [while (true)] loop of [downloadDataset]. A page is a settled
    [fetchChunk]: its body, parsed in JSON mode ([None] when [JSON.parse]
    fails, modelled as a throw of "SyntaxError", the error's name, where
    [main] would print its message). A transport error of a page request
    ([req.on('error', reject)] in [fetchChunk]) is not modelled. *)
Fixpoint download_loop (fuel : nat) (env : Env) (a : CliArgs)
    (rowsToDownload : option num) (ls : LoopState) : M LoopState :=
  match fuel with
  | O => fun s => OutOfFuel s
  | S fuel' =>
      let chunkLimit := page_limit a rowsToDownload (downloadedRows ls) in
      if chunkLimit <=? 0 then ret ls else
      emit (EFetch chunkLimit (offset ls)) ;;
      match format a with
      | json =>
          match json_page env chunkLimit (offset ls) with
          | None => throw "SyntaxError"
          | Some (JArr ((_ :: _) as rows)) =>
              first <- write_rows (isFirstChunk ls) 0 rows ;;
              let d := downloadedRows ls + Z.of_nat (List.length rows) in
              if Z.of_nat (List.length rows) <? chunkLimit
              then ret (mkLoopState (offset ls) d first)
              else
                emit (EProgress d (known_total rowsToDownload)) ;;
                download_loop fuel' env a rowsToDownload
                  (mkLoopState (offset ls + chunkLimit) d first)
          | Some _ => ret ls
          end
      | csv =>
          let chunk := csv_page env chunkLimit (offset ls) in
          let lines := split_nl chunk in
          if (List.length lines <=? 1)%nat then ret ls else
          (if isFirstChunk ls then write chunk
           else write (String.concat nl (tl lines))) ;;
          let d := downloadedRows ls + (Z.of_nat (List.length lines) - 1) in
          if Z.of_nat (List.length lines) - 1 <? chunkLimit
          then ret (mkLoopState (offset ls) d false)
          else
            emit (EProgress d (known_total rowsToDownload)) ;;
            download_loop fuel' env a rowsToDownload
              (mkLoopState (offset ls + chunkLimit) d false)
      end
  end.

(** ** [downloadDataset] and [main] *)

Definition large_dataset_rows : Z := 50000.

(** Lines 273-306: the pre-count and the confirmation gate; returns
    [totalRows]. *)
Definition confirmation_gate (env : Env) (a : CliArgs) (metadata : DatasetMetadata)
    : M (option num) :=
  if negb (noConfirm a) && negb (limit_truthy a) then
    emit (ELog "Counting rows...") ;;
    emit ECountRows ;;
    t <- await (countRows (count_resp env)) ;;
    emit (ELog "Total rows:") ;;
    (if num_gt t large_dataset_rows && negb (where_truthy a) then
       emit (ELog "This is a large dataset. Consider filtering with --where") ;;
       dcs <- await (date_columns (columns metadata)) ;;
       match dcs with
       | [] => ret tt
       | _ => emit (ELog "Example date filters")
       end
     else ret tt) ;;
    confirmed <- confirmDownload env t ;;
    if confirmed then ret (Some t)
    else emit (ELog "Download cancelled.") ;; exit 0
  else ret None.

(** Lines 308-395: the output file and the paginated download. *)
Definition write_output (fuel : nat) (env : Env) (a : CliArgs) (totalRows : option num)
    : M unit :=
  let rowsToDownload :=
    if limit_truthy a then option_map Num (limit a) else totalRows in
  emit (ELog "Downloading to") ;;
  open_file (output a) ;;
  (match format a with json => write ("[" ++ nl) | csv => ret tt end) ;;
  ls <- download_loop fuel env a rowsToDownload (mkLoopState 0 0 true) ;;
  (match format a with json => write (nl ++ "]" ++ nl) | csv => ret tt end) ;;
  emit (EComplete (downloadedRows ls)).

Definition downloadDataset (fuel : nat) (env : Env) (a : CliArgs) : M unit :=
  emit (ELog "Fetching metadata for dataset") ;;
  emit (EGetMetadata (datasetId a)) ;;
  metadata <- await (fetchMetadata (metadata_resp env)) ;;
  emit (ELog "Dataset:") ;;
  emit (ELog "Columns:") ;;
  (if (0 <? List.length (columns metadata))%nat
   then emit (ELog "Available columns:") else ret tt) ;;
  totalRows <- confirmation_gate env a metadata ;;
  write_output fuel env a totalRows.

Definition init : St := {| trace := []; file := None |}.

(** The top-level [async] block: an exception exits with code 1. The
    [file] component is the data handed to the write stream; that it
    reaches the disk before [process.exit(1)] ends the process is not
    modelled. *)
Definition main (fuel : nat) (env : Env) (a : CliArgs) : Res unit :=
  match downloadDataset fuel env a init with
  | Throw msg s =>
      Exit 1 {| trace := (trace s ++ [ELog ("Error: " ++ msg)])%list; file := file s |}
  | r => r
  end.

Definition res_state {A} (r : Res A) : St :=
  match r with Ok _ s | Exit _ s | Throw _ s | OutOfFuel s => s end.

Definition is_fetch (e : Event) : bool :=
  match e with EFetch _ _ => true | _ => false end.

Definition fetches (tr : list Event) : nat := List.length (filter is_fetch tr).

(** ** Model remotes *)

(** A JSON endpoint over a fixed result set that returns exactly
    [min(cap, remaining)] records for a request at an offset. *)
Definition json_remote (data : list jval) (lim off : Z) : option jval :=
  Some (JArr (firstn (Z.to_nat lim) (skipn (Z.to_nat off) data))).

(** A CSV endpoint over a fixed result set: a header line and the
    requested slice of data lines, each line ended by a newline. *)
Definition csv_remote (header : string) (data : list string) (lim off : Z) : string :=
  String.concat "" (map (fun l => l ++ nl) (header :: firstn (Z.to_nat lim) (skipn (Z.to_nat off) data))).

Definition json_rows (n : nat) : list jval :=
  map (fun i => JObj [("id", JNum (Z.of_nat i))]) (seq 1 n).

Definition csv_rows (n : nat) : list string :=
  map (fun i => "r" ++ z_to_string (Z.of_nat i)) (seq 1 n).

Definition ok_metadata : http_resp :=
  HttpBody (Some (JObj [("name", JStr "MTA Daily Ridership");
                        ("columns", JArr [JObj [("fieldName", JStr "date");
                                                ("name", JStr "Date");
                                                ("dataTypeName", JStr "calendar_date")]])])).

Definition count_of (n : Z) : http_resp :=
  HttpBody (Some (JArr [JObj [("count", JStr (z_to_string n))]])).

Definition json_env (data : list jval) (ans : string) : Env :=
  {| metadata_resp := ok_metadata; count_resp := count_of (Z.of_nat (List.length data));
     answer := ans; json_page := json_remote data; csv_page := fun _ _ => "" |}.

Definition csv_env (data : list string) (ans : string) : Env :=
  {| metadata_resp := ok_metadata; count_resp := count_of (Z.of_nat (List.length data));
     answer := ans; json_page := fun _ _ => None; csv_page := csv_remote "id" data |}.

Definition request (f : Format) (lim : option Z) (P : Z) (noconf : bool) : CliArgs :=
  {| datasetId := "vxuj-8kew"; format := f; output := "data/vxuj-8kew.out"; limit := lim;
     where_ := None; select := None; order := None; chunkSize := P; noConfirm := noconf |}.

(** ** Traces of the straight-line parts *)

(** The log lines before the confirmation gate. *)
Definition pre_gate_trace (a : CliArgs) (md : DatasetMetadata) : list Event :=
  [ELog "Fetching metadata for dataset"; EGetMetadata (datasetId a);
   ELog "Dataset:"; ELog "Columns:"] ++
  (if (0 <? List.length (columns md))%nat then [ELog "Available columns:"] else []).

(** The lines of the gate before the prompt for the count [t]: the
    filter suggestion only for a count above the threshold without a
    filter, the date examples only when there are date columns [ds]. *)
Definition gate_log (a : CliArgs) (t : num) (ds : list Column) : list Event :=
  [ELog "Counting rows..."; ECountRows; ELog "Total rows:"] ++
  (if num_gt t large_dataset_rows && negb (where_truthy a)
   then ELog "This is a large dataset. Consider filtering with --where" ::
        match ds with [] => [] | _ => [ELog "Example date filters"] end
   else []).

(** The text of a JSON array of the given records, as the JSON mode of
    the script frames it. *)
Definition json_items (rows : list jval) : string :=
  String.concat ("," ++ nl) (map (fun r => "  " ++ stringify r) rows).

Definition json_array (rows : list jval) : string :=
  "[" ++ nl ++ json_items rows ++ nl ++ "]" ++ nl.

(** The JSON-mode invariant of the loop: the file holds the opening
    bracket and the records written so far, and [isFirstChunk] tells
    whether there are none. *)
Definition JInv (ls : LoopState) (s : St) : Prop :=
  exists rows, file s = Some ("[" ++ nl ++ json_items rows) /\
               (isFirstChunk ls = true <-> rows = []).

(** The JSON-mode file after the first [d] records of [data], with
    [isFirstChunk] telling whether there are none. *)
Definition JFile (data : list jval) (d : nat) (s : St) (first : bool) : Prop :=
  file s = Some ("[" ++ nl ++ json_items (firstn d data)) /\
  (first = true <-> firstn d data = []).

(** The text of a CSV body with the given lines, each ended by a newline. *)
Definition csv_text (header : string) (rows : list string) : string :=
  String.concat "" (map (fun l => l ++ nl) (header :: rows)).

Definition is_progress (e : Event) : bool :=
  match e with EProgress _ _ => true | _ => false end.

(** The metadata that [ok_metadata] parses to. *)
Definition ok_md : DatasetMetadata :=
  {| md_name := Some (JStr "MTA Daily Ridership");
     columns := [{| fieldName := Some (JStr "date"); col_name := Some (JStr "Date");
                    dataTypeName := Some (JStr "calendar_date") |}] |}.

(** A world in which the count is 60,000 and the operator declines. *)
Definition declining_env : Env :=
  {| metadata_resp := ok_metadata; count_resp := count_of 60000; answer := "n";
     json_page := json_remote []; csv_page := csv_remote "id" [] |}.

(** Decimal digit strings, for the count estimator. *)
Fixpoint digits_text (ds : list nat) : string :=
  match ds with
  | [] => ""
  | d :: rest => String (ascii_of_nat (48 + d)) (digits_text rest)
  end.

Definition digits_num (ds : list nat) : Z :=
  fold_left (fun acc d => 10 * acc + Z.of_nat d) ds 0.

(** The number of rows the loop commits from the page it requests with
    limit [c] at offset [o], or [None] when that page ends the loop
    without committing anything (an empty, non-array or header-only
    page; an unparsable JSON page, which throws). *)
Definition committed_rows (env : Env) (a : CliArgs) (c o : Z) : option Z :=
  match format a with
  | json =>
      match json_page env c o with
      | Some (JArr ((_ :: _) as rows)) => Some (Z.of_nat (List.length rows))
      | _ => None
      end
  | csv =>
      let lines := split_nl (csv_page env c o) in
      if (List.length lines <=? 1)%nat then None
      else Some (Z.of_nat (List.length lines) - 1)
  end.

(** The events of the loop from [d] rows committed on: each page request
    is followed by a progress line carrying the new count and [total]
    when the page commits as many rows as requested, and ends the events
    when it commits fewer or none. *)
Fixpoint progress_shape (env : Env) (a : CliArgs) (total : option Z) (d : Z)
    (tr : list Event) : Prop :=
  match tr with
  | [] => True
  | EFetch c o :: rest =>
      match committed_rows env a c o with
      | None => rest = []
      | Some k =>
          if k <? c then rest = []
          else match rest with
               | EProgress d' t :: rest' =>
                   d' = d + k /\ t = total /\ progress_shape env a total (d + k) rest'
               | _ => False
               end
      end
  | _ => False
  end.

(** ** Page requests of a run *)

(** The [(limit, offset)] pairs of the page requests in a trace. *)
Fixpoint fetch_list (tr : list Event) : list (Z * Z) :=
  match tr with
  | [] => []
  | EFetch c o :: rest => (c, o) :: fetch_list rest
  | _ :: rest => fetch_list rest
  end.

(** Requests that tile the result set from offset [o] on: each starts
    where the previous one ended and asks for between 1 and [P] rows. *)
Fixpoint pages_from (P o : Z) (l : list (Z * Z)) : Prop :=
  match l with
  | [] => True
  | (c, o') :: rest => o' = o /\ 0 < c <= P /\ pages_from P (o + c) rest
  end.

(** Actions that issue no page request and leave the file alone. *)
Definition Quiet {A} (m : M A) : Prop :=
  forall s, fetches (trace (res_state (m s))) = fetches (trace s) /\
            file (res_state (m s)) = file s.

(** A server that answers every page request with an error object. *)
Definition error_object_env : Env :=
  {| metadata_resp := ok_metadata; count_resp := count_of 0; answer := "y";
     json_page := fun _ _ => Some (JObj [("error", JBool true)]);
     csv_page := fun _ _ => "" |}.

(** The two halves of the date-column test: the column's type is
    [calendar_date], and its [fieldName] has an [includes] method (a
    string or an array). *)
Definition is_calendar (c : Column) : bool :=
  match dataTypeName c with
  | Some (JStr t) => String.eqb t "calendar_date"
  | _ => false
  end.

Definition fieldName_searchable (c : Column) : bool :=
  match fieldName c with
  | Some (JStr _) | Some (JArr _) => true
  | _ => false
  end.

(** The answers to the prompt that confirm a download. *)
Definition yes_answers : list string :=
  ["y"; "Y"; "yes"; "yeS"; "yEs"; "yES"; "Yes"; "YeS"; "YEs"; "YES"].

(** Metadata with a column that has no [fieldName]. *)
Definition no_field_metadata : http_resp :=
  HttpBody (Some (JObj [("name", JStr "MTA Daily Ridership");
                        ("columns", JArr [JObj [("name", JStr "Ridership");
                                                ("dataTypeName", JStr "number")]])])).

Definition no_field_env : Env :=
  {| metadata_resp := no_field_metadata; count_resp := count_of 60000;
     answer := "y"; json_page := fun _ _ => None; csv_page := fun _ _ => "" |}.

(** ** [parseArgs] *)

(** Lines 63-169: the command line, as [parseArgs] reads it into its
    [CliArgs] object; the numbers come from [parseInt] and may be [NaN]. *)
Module Cli.

Record CliArgs := {
  datasetId : string;
  format : Format;
  output : option string;
  outputDir : string;
  limit : option num;
  where_ : option string;
  select : option string;
  order : option string;
  chunkSize : num;
  noConfirm : bool
}.

Definition defaults (id : string) : CliArgs :=
  {| datasetId := id; format := csv; output := None; outputDir := "./data";
     limit := None; where_ := None; select := None; order := None;
     chunkSize := Num 10000; noConfirm := false |}.

(** The assignments [parsed.x = ...] of the [switch]. *)
Definition set_format (p : CliArgs) (f : Format) : CliArgs :=
  {| datasetId := datasetId p; format := f; output := output p; outputDir := outputDir p;
     limit := limit p; where_ := where_ p; select := select p; order := order p;
     chunkSize := chunkSize p; noConfirm := noConfirm p |}.

Definition set_output (p : CliArgs) (o : string) : CliArgs :=
  {| datasetId := datasetId p; format := format p; output := Some o; outputDir := outputDir p;
     limit := limit p; where_ := where_ p; select := select p; order := order p;
     chunkSize := chunkSize p; noConfirm := noConfirm p |}.

Definition set_outputDir (p : CliArgs) (d : string) : CliArgs :=
  {| datasetId := datasetId p; format := format p; output := output p; outputDir := d;
     limit := limit p; where_ := where_ p; select := select p; order := order p;
     chunkSize := chunkSize p; noConfirm := noConfirm p |}.

Definition set_limit (p : CliArgs) (n : num) : CliArgs :=
  {| datasetId := datasetId p; format := format p; output := output p; outputDir := outputDir p;
     limit := Some n; where_ := where_ p; select := select p; order := order p;
     chunkSize := chunkSize p; noConfirm := noConfirm p |}.

Definition set_where (p : CliArgs) (w : string) : CliArgs :=
  {| datasetId := datasetId p; format := format p; output := output p; outputDir := outputDir p;
     limit := limit p; where_ := Some w; select := select p; order := order p;
     chunkSize := chunkSize p; noConfirm := noConfirm p |}.

Definition set_select (p : CliArgs) (c : string) : CliArgs :=
  {| datasetId := datasetId p; format := format p; output := output p; outputDir := outputDir p;
     limit := limit p; where_ := where_ p; select := Some c; order := order p;
     chunkSize := chunkSize p; noConfirm := noConfirm p |}.

Definition set_order (p : CliArgs) (o : string) : CliArgs :=
  {| datasetId := datasetId p; format := format p; output := output p; outputDir := outputDir p;
     limit := limit p; where_ := where_ p; select := select p; order := Some o;
     chunkSize := chunkSize p; noConfirm := noConfirm p |}.

Definition set_chunkSize (p : CliArgs) (n : num) : CliArgs :=
  {| datasetId := datasetId p; format := format p; output := output p; outputDir := outputDir p;
     limit := limit p; where_ := where_ p; select := select p; order := order p;
     chunkSize := n; noConfirm := noConfirm p |}.

Definition set_noConfirm (p : CliArgs) : CliArgs :=
  {| datasetId := datasetId p; format := format p; output := output p; outputDir := outputDir p;
     limit := limit p; where_ := where_ p; select := select p; order := order p;
     chunkSize := chunkSize p; noConfirm := true |}.

(** How the option loop ends: [process.exit(code)] after the lines
    written to stderr, or the parsed object. *)
Inductive Outcome :=
| PExit (code : Z) (stderr : list string)
| PDone (parsed : CliArgs).

(** The [for] loop over [args[1..]]: [args] is what is left of the
    arguments, and a value option takes the next one ([args[++i]]),
    whatever it is. *)
Fixpoint parse_options (args : list string) (parsed : CliArgs) : Outcome :=
  match args with
  | [] => PDone parsed
  | arg :: rest =>
      if String.eqb arg "--format" then
        match rest with
        | [] => PExit 1 ["Error: --format requires a value (csv or json)"]
        | v :: rest' =>
            let f := to_lower v in
            if String.eqb f "csv" then parse_options rest' (set_format parsed csv)
            else if String.eqb f "json" then parse_options rest' (set_format parsed json)
            else PExit 1 ["Error: --format must be csv or json"]
        end
      else if String.eqb arg "--output" then
        match rest with
        | [] => PExit 1 ["Error: --output requires a file path"]
        | v :: rest' => parse_options rest' (set_output parsed v)
        end
      else if String.eqb arg "--output-dir" then
        match rest with
        | [] => PExit 1 ["Error: --output-dir requires a directory path"]
        | v :: rest' => parse_options rest' (set_outputDir parsed v)
        end
      else if String.eqb arg "--limit" then
        match rest with
        | [] => PExit 1 ["Error: --limit requires a number"]
        | v :: rest' => parse_options rest' (set_limit parsed (parseInt10 v))
        end
      else if String.eqb arg "--where" then
        match rest with
        | [] => PExit 1 ["Error: --where requires a clause"]
        | v :: rest' => parse_options rest' (set_where parsed v)
        end
      else if String.eqb arg "--select" then
        match rest with
        | [] => PExit 1 ["Error: --select requires column names"]
        | v :: rest' => parse_options rest' (set_select parsed v)
        end
      else if String.eqb arg "--order" then
        match rest with
        | [] => PExit 1 ["Error: --order requires a clause"]
        | v :: rest' => parse_options rest' (set_order parsed v)
        end
      else if String.eqb arg "--chunk-size" then
        match rest with
        | [] => PExit 1 ["Error: --chunk-size requires a number"]
        | v :: rest' => parse_options rest' (set_chunkSize parsed (parseInt10 v))
        end
      else if String.eqb arg "--no-confirm" then
        parse_options rest (set_noConfirm parsed)
      else PExit 1 ["Error: Unknown option " ++ arg]
  end.

(** The file system as [parseArgs] uses it: [fs.existsSync],
    [fs.mkdirSync(dir, { recursive: true })] (an error message when it
    throws) and Node's [path.dirname]. *)
Record FS := {
  existsSync : string -> bool;
  mkdirSync : string -> option string;
  dirname : string -> string
}.

(** What [parseArgs] does: exit, throw (from [mkdirSync]; [main] turns
    it into exit code 1), or return the arguments after creating the
    listed directories. *)
Inductive PResult :=
| Exited (code : Z) (stderr : list string)
| Threw (msg : string)
| Parsed (mkdirs : list string) (parsed : CliArgs).

Definition format_str (f : Format) : string :=
  match f with csv => "csv" | json => "json" end.

(** [if (!fs.existsSync(dir)) fs.mkdirSync(dir, { recursive: true })] *)
Definition ensure_dir (fs : FS) (dir : string) (parsed : CliArgs) : PResult :=
  if existsSync fs dir then Parsed [] parsed
  else match mkdirSync fs dir with
       | Some e => Threw e
       | None => Parsed [dir] parsed
       end.

(** Lines 153-166: the default output path, and the output directory. *)
Definition set_default_output (fs : FS) (parsed : CliArgs) : PResult :=
  let given := match output parsed with
               | Some o => if String.eqb o "" then None else Some o
               | None => None
               end in
  match given with
  | None =>
      let dir := outputDir parsed in
      ensure_dir fs dir
        (set_output parsed
           (dir ++ "/" ++ datasetId parsed ++ "." ++ format_str (format parsed)))
  | Some o =>
      let dir := dirname fs o in
      if String.eqb dir "" then Parsed [] parsed else ensure_dir fs dir parsed
  end.

Definition usage_error : list string :=
  ["Error: Dataset ID is required"; "Usage: ./download-dataset.ts <dataset-id> [options]"].

(** [parseArgs()] on [process.argv.slice(2)]. *)
Definition parseArgs (fs : FS) (args : list string) : PResult :=
  match args with
  | [] => Exited 1 usage_error
  | arg0 :: rest =>
      if String.prefix "--" arg0 then Exited 1 usage_error
      else match parse_options rest (defaults arg0) with
           | PExit code msgs => Exited code msgs
           | PDone parsed => set_default_output fs parsed
           end
  end.

(** The options that take a value. *)
Definition value_options : list string :=
  ["--format"; "--output"; "--output-dir"; "--limit"; "--where"; "--select"; "--order";
   "--chunk-size"].

Definition known_options : list string := "--no-confirm" :: value_options.

(** A file system where no path exists yet and every directory can be
    created. *)
Definition fresh_fs : FS :=
  {| existsSync := fun _ => false; mkdirSync := fun _ => None; dirname := fun _ => "." |}.

End Cli.

(** * Properties *)

(** ** Monad facts *)

Lemma bind_ok {A B} (m : M A) (k : A -> M B) s a s' :
  m s = Ok a s' -> bind m k s = k a s'.
Proof. intros H; unfold bind; now rewrite H. Qed.

Lemma bind_ok_inv {A B} (m : M A) (k : A -> M B) s b s'' :
  bind m k s = Ok b s'' -> exists a s', m s = Ok a s' /\ k a s' = Ok b s''.
Proof.
  unfold bind; destruct (m s) as [a s'|c s'|e s'|s']; intros H; try discriminate.
  eauto.
Qed.

(** Every action only appends to the trace. *)
Definition Extending {A} (m : M A) : Prop :=
  forall s, exists added, trace (res_state (m s)) = (trace s ++ added)%list.

Create HintDb ext.

Lemma ext_ret {A} (a : A) : Extending (ret a).
Proof. intros s; exists []; now rewrite app_nil_r. Qed.

Lemma ext_emit e : Extending (emit e).
Proof. intros s; now exists [e]. Qed.

Lemma ext_open p : Extending (open_file p).
Proof. intros s; now exists [EOpen p]. Qed.

Lemma ext_write str : Extending (write str).
Proof. intros s; exists []; now rewrite app_nil_r. Qed.

Lemma ext_throw {A} msg : Extending (@throw A msg).
Proof. intros s; exists []; now rewrite app_nil_r. Qed.

Lemma ext_exit {A} c : Extending (@exit A c).
Proof. intros s; exists []; now rewrite app_nil_r. Qed.

Lemma ext_fuel {A} : Extending (fun s => @OutOfFuel A s).
Proof. intros s; exists []; now rewrite app_nil_r. Qed.

Lemma ext_await {A} (r : result A) : Extending (await r).
Proof. destruct r; [apply ext_throw | apply ext_ret]. Qed.

Lemma ext_bind {A B} (m : M A) (k : A -> M B) :
  Extending m -> (forall a, Extending (k a)) -> Extending (bind m k).
Proof.
  intros Hm Hk s; unfold bind.
  destruct (Hm s) as [l1 E1].
  destruct (m s) as [a s'|c s'|e s'|s']; simpl in *; eauto.
  destruct (Hk a s') as [l2 E2].
  exists (l1 ++ l2)%list; now rewrite E2, E1, app_assoc.
Qed.

#[local] Hint Resolve ext_ret ext_emit ext_open ext_write ext_throw ext_exit
  ext_fuel ext_await : ext.

Ltac ext_step :=
  match goal with
  | |- Extending (bind _ _) => apply ext_bind; [|intros ?]
  | |- Extending (match ?x with _ => _ end) => destruct x
  | |- Extending (if ?b then _ else _) => destruct b
  end.

Ltac ext_solve := repeat (ext_step || eauto with ext).

Lemma ext_write_rows b i rows : Extending (write_rows b i rows).
Proof.
  revert b i; induction rows as [|r rows IH]; intros b i; simpl; ext_solve.
Qed.
#[local] Hint Resolve ext_write_rows : ext.

Lemma ext_download_loop fuel env a rtd ls : Extending (download_loop fuel env a rtd ls).
Proof.
  revert ls; induction fuel as [|fuel IH]; intros ls; simpl; [apply ext_fuel|].
  ext_solve.
Qed.
#[local] Hint Resolve ext_download_loop : ext.

Lemma ext_confirmation_gate env a md : Extending (confirmation_gate env a md).
Proof. unfold confirmation_gate, confirmDownload; ext_solve. Qed.
#[local] Hint Resolve ext_confirmation_gate : ext.

Lemma ext_write_output fuel env a t : Extending (write_output fuel env a t).
Proof. unfold write_output; ext_solve. Qed.
#[local] Hint Resolve ext_write_output : ext.

(** ** The metadata fetch comes first *)

(** C10: the metadata request is the first request; when it fails (a
    transport error, a body that is not JSON, or a body the mapping in
    [fetchMetadata] throws on) [main] exits with code 1 and the
    destination file was never created or written; conversely, whenever
    the file was created, the metadata fetch had succeeded. *)
Theorem metadata_failure_leaves_output_untouched fuel env a :
  match fetchMetadata (metadata_resp env) with
  | Rejected msg =>
      main fuel env a =
        Exit 1 {| trace := [ELog "Fetching metadata for dataset";
                            EGetMetadata (datasetId a); ELog ("Error: " ++ msg)];
                  file := None |}
  | Resolved _ => True
  end /\
  ((file (res_state (main fuel env a)) <> None \/
    exists p, In (EOpen p) (trace (res_state (main fuel env a)))) ->
   exists md, fetchMetadata (metadata_resp env) = Resolved md).
Proof.
  assert (Hrun : forall msg, fetchMetadata (metadata_resp env) = Rejected msg ->
            main fuel env a =
              Exit 1 {| trace := [ELog "Fetching metadata for dataset";
                                  EGetMetadata (datasetId a); ELog ("Error: " ++ msg)];
                        file := None |}).
  { intros msg Hm; unfold main, downloadDataset; cbn; now rewrite Hm. }
  destruct (fetchMetadata (metadata_resp env)) as [msg|md] eqn:Hm.
  - rewrite (Hrun msg eq_refl); split; [reflexivity|].
    cbn; intros [H|[p [H|[H|[H|H]]]]]; try discriminate; try contradiction; congruence.
  - split; [exact I|]; eauto.
Qed.

(** ** The confirmation gate *)

Lemma downloadDataset_resolved fuel env a md :
  fetchMetadata (metadata_resp env) = Resolved md ->
  downloadDataset fuel env a init =
  bind (confirmation_gate env a md) (write_output fuel env a)
    {| trace := pre_gate_trace a md; file := None |}.
Proof.
  intros Hm; unfold downloadDataset; rewrite Hm.
  unfold pre_gate_trace; cbv [bind emit await ret].
  destruct (0 <? List.length (columns md))%nat; reflexivity.
Qed.

Lemma fetches_app l1 l2 : fetches (l1 ++ l2)%list = (fetches l1 + fetches l2)%nat.
Proof. unfold fetches; now rewrite filter_app, length_app. Qed.

Lemma gate_prompt env a md t s :
  limit_truthy a = false -> noConfirm a = false -> countRows (count_resp env) = Resolved t ->
  (exists ds,
     confirmation_gate env a md s =
       if is_yes (answer env)
       then Ok (Some t) {| trace := (trace s ++ gate_log a t ds ++ [EPrompt t])%list;
                           file := file s |}
       else Exit 0 {| trace := (trace s ++ gate_log a t ds ++
                                [EPrompt t; ELog "Download cancelled."])%list;
                      file := file s |})
  \/ (exists m, num_gt t large_dataset_rows = true /\ where_truthy a = false /\
        date_columns (columns md) = Rejected m /\
        confirmation_gate env a md s =
          Throw m {| trace := (trace s ++ gate_log a t [])%list; file := file s |}).
Proof.
  intros Hl Hc Ht.
  unfold confirmation_gate; rewrite Hl, Hc.
  cbv [bind emit await ret throw confirmDownload exit negb andb]; rewrite Ht.
  unfold gate_log.
  destruct (num_gt t large_dataset_rows) eqn:Hg, (where_truthy a) eqn:Hw; cbn [negb andb].
  2: destruct (date_columns (columns md)) as [m|ds] eqn:Hd;
       [right; exists m; repeat split; auto; cbn; try rewrite <- ?app_assoc; reflexivity
       | left; exists ds; destruct ds; destruct (is_yes (answer env));
         cbn; rewrite <- ?app_assoc; reflexivity].
  all: left; exists []; destruct (is_yes (answer env)); cbn; rewrite <- !app_assoc; reflexivity.
Qed.

Lemma gate_log_facts a md t ds :
  In ECountRows (pre_gate_trace a md ++ gate_log a t ds) /\
  fetches (pre_gate_trace a md ++ gate_log a t ds) = 0%nat /\
  (forall m, ~ In (EPrompt m) (pre_gate_trace a md ++ gate_log a t ds)).
Proof.
  unfold pre_gate_trace, gate_log, fetches.
  destruct (0 <? List.length (columns md))%nat,
           (num_gt t large_dataset_rows && negb (where_truthy a)), ds;
    cbn; (split; [auto 10 | split; [reflexivity | intros m H; repeat (destruct H as [H|H]; [discriminate|]); exact H]]).
Qed.


(** ** JSON framing *)

Lemma sapp_assoc (x y z : string) : (x ++ y) ++ z = x ++ (y ++ z).
Proof. induction x as [|c x IH]; simpl; congruence. Qed.

Lemma sapp_nil_r (x : string) : x ++ "" = x.
Proof. induction x as [|c x IH]; simpl; congruence. Qed.

Lemma concat_cons sep x l :
  l <> [] -> String.concat sep (x :: l) = x ++ sep ++ String.concat sep l.
Proof. destruct l; [congruence | reflexivity]. Qed.

Lemma concat_snoc sep l x :
  l <> [] -> String.concat sep (l ++ [x])%list = String.concat sep l ++ sep ++ x.
Proof.
  induction l as [|y l IH]; intros Hl; [congruence|].
  destruct l as [|z l]; [reflexivity|].
  rewrite <- app_comm_cons, concat_cons by (destruct l; discriminate).
  rewrite IH by discriminate.
  rewrite (concat_cons sep y (z :: l)) by discriminate.
  now rewrite !sapp_assoc.
Qed.

Lemma json_items_snoc rows x :
  json_items (rows ++ [x])%list =
  if (match rows with [] => true | _ => false end) then "  " ++ stringify x
  else json_items rows ++ "," ++ nl ++ "  " ++ stringify x.
Proof.
  unfold json_items; destruct rows as [|r rows]; [reflexivity|].
  rewrite map_app; simpl map.
  rewrite concat_snoc by discriminate.
  now rewrite sapp_assoc.
Qed.

Lemma bind_ok_k {A B} (m : M A) (k : A -> M B) s b s'' :
  bind m k s = Ok b s'' -> exists a s', k a s' = Ok b s''.
Proof. intros H; destruct (bind_ok_inv _ _ _ _ _ H) as (x & s' & _ & H2); eauto. Qed.

Ltac peel H x s H1 H2 :=
  let Hk := fresh "Hk" in
  destruct (bind_ok_inv _ _ _ _ _ H) as (x & s & H1 & Hk); clear H; cbv beta in Hk;
  rename Hk into H2.

Ltac drop H :=
  let H' := fresh "H" in
  destruct (bind_ok_k _ _ _ _ _ H) as (? & ? & H'); clear H; cbv beta in H'; rename H' into H.

Lemma emit_ok e s x s' :
  emit e s = Ok x s' -> s' = {| trace := (trace s ++ [e])%list; file := file s |}.
Proof. intros H; inversion H; reflexivity. Qed.

(** What [write_rows] appends in JSON mode. *)
Lemma write_rows_json new : forall b i rows s,
  file s = Some ("[" ++ nl ++ json_items rows) ->
  ((negb b || (0 <? i)%nat) = true <-> rows <> []) ->
  ((0 < i)%nat -> b = false) ->
  exists b' s', write_rows b i new s = Ok b' s' /\ trace s' = trace s /\
    file s' = Some ("[" ++ nl ++ json_items (rows ++ new)%list) /\
    (b' = true <-> (rows ++ new)%list = []).
Proof.
  induction new as [|x new IH]; intros b i rows s Hf Hsep Hi.
  - exists b, s; rewrite app_nil_r.
    split; [reflexivity|]; split; [reflexivity|]; split; [exact Hf|]; split.
    + intros Hb; subst b; destruct i as [|i]; simpl in Hsep.
      * destruct rows; [reflexivity|].
        assert (Hc : false = true) by (apply Hsep; discriminate); discriminate.
      * specialize (Hi ltac:(lia)); discriminate.
    + intros Hr; destruct b; [reflexivity|]; exfalso; apply Hsep; [|exact Hr].
      reflexivity.
  - set (s1 := {| trace := trace s;
                  file := Some ("[" ++ nl ++ json_items (rows ++ [x])%list) |}).
    destruct (IH false (S i) (rows ++ [x])%list s1) as (b' & s' & Hw & Ht & Hf' & Hb');
      [reflexivity | split; [intros _; destruct rows; discriminate | reflexivity]
      | reflexivity |].
    exists b', s'; split; [|split; [exact Ht|]; rewrite <- app_assoc in Hf', Hb'; auto].
    simpl write_rows; rewrite <- Hw; unfold s1; clear Hw Ht Hf' Hb' s1.
    rewrite json_items_snoc.
    destruct (negb b || (0 <? i)%nat) eqn:E; unfold bind, write, ret;
      rewrite Hf; cbn [option_map trace file].
    + destruct rows as [|r rows]; [exfalso; now apply (proj1 Hsep)|].
      do 3 f_equal; rewrite !sapp_assoc; reflexivity.
    + destruct rows as [|r rows];
        [|exfalso; assert (Hc : false = true) by (apply Hsep; discriminate);
          discriminate].
      reflexivity.
Qed.

Lemma loop_json_inv fuel env a rtd :
  format a = json ->
  forall ls s ls' s', JInv ls s ->
  download_loop fuel env a rtd ls s = Ok ls' s' -> JInv ls' s'.
Proof.
  intros Hfmt; induction fuel as [|fuel IH]; intros ls s ls' s' Hinv H;
    cbn [download_loop] in H; [discriminate|].
  destruct (page_limit a rtd (downloadedRows ls) <=? 0);
    [inversion H; subst; exact Hinv|].
  peel H u s0 Hm Hk; apply emit_ok in Hm; subst s0.
  rewrite Hfmt in Hk.
  destruct (json_page env (page_limit a rtd (downloadedRows ls)) (offset ls)) as [v|];
    [|discriminate].
  destruct v as [| | | | [|r rows] |]; try (inversion Hk; subst; exact Hinv).
  peel Hk b s1 Hm1 Hk1.
  destruct Hinv as (old & Hf & Hfirst).
  destruct (write_rows_json (r :: rows) (isFirstChunk ls) 0 old
              {| trace := (trace s ++ [EFetch (page_limit a rtd (downloadedRows ls))
                                        (offset ls)])%list; file := file s |} Hf)
    as (b' & s2 & Hw & Ht & Hf2 & Hb2).
  { simpl; rewrite orb_false_r; split.
    - intros Hb Hn; subst old; destruct (isFirstChunk ls); [discriminate|].
      now assert (Hc : false = true) by (apply Hfirst; reflexivity).
    - intros Hn; destruct (isFirstChunk ls); [|reflexivity].
      exfalso; apply Hn; now apply Hfirst. }
  { intros Hi; lia. }
  rewrite Hw in Hm1; inversion Hm1; subst b s1; clear Hm1.
  destruct (_ <? _) in Hk1.
  - inversion Hk1; subst; exists (old ++ r :: rows)%list; split; [exact Hf2|exact Hb2].
  - peel Hk1 u3 s3 Hm2 Hk2; apply emit_ok in Hm2; subst s3.
    eapply IH; [|exact Hk2].
    exists (old ++ r :: rows)%list; split; [exact Hf2|exact Hb2].
Qed.

Lemma open_ok p s x s' : open_file p s = Ok x s' -> file s' = Some "".
Proof. intros H; inversion H; reflexivity. Qed.

Lemma write_ok str s x s' :
  write str s = Ok x s' -> file s' = option_map (fun f => f ++ str) (file s).
Proof. intros H; inversion H; reflexivity. Qed.

Lemma main_ok fuel env a u s :
  main fuel env a = Ok u s -> downloadDataset fuel env a init = Ok u s.
Proof.
  unfold main; destruct (downloadDataset fuel env a init); intros H; congruence.
Qed.

(** A successful run went through [write_output]. *)
Lemma downloadDataset_ok fuel env a u s :
  downloadDataset fuel env a init = Ok u s ->
  exists t s0, write_output fuel env a t s0 = Ok u s.
Proof.
  unfold downloadDataset; intros H.
  do 7 drop H; eauto.
Qed.

(** C4: every successful JSON-mode run leaves in the output file exactly
    one JSON array: "[", newline, the records each indented by two
    spaces and separated by "," and a newline (none before the first,
    none after the last), newline, "]", newline; with no record it is
    the empty array "[", newline, newline, "]", newline. *)
Theorem json_output_is_one_array fuel env a s :
  format a = json -> main fuel env a = Ok tt s ->
  exists rows, file s = Some (json_array rows).
Proof.
  intros Hfmt H; apply main_ok, downloadDataset_ok in H as (t & s0 & H).
  unfold write_output in H; rewrite Hfmt in H.
  drop H.
  peel H u1 s1 Ho H; apply open_ok in Ho.
  peel H u2 s2 Hw H; apply write_ok in Hw; rewrite Ho in Hw; cbn [option_map] in Hw.
  peel H ls s3 Hl H.
  peel H u4 s4 Hw4 H; apply write_ok in Hw4.
  apply emit_ok in H; subst s.
  assert (H0 : JInv (mkLoopState 0 0 true) s2).
  { exists []; split; [rewrite Hw; reflexivity | split; reflexivity]. }
  destruct (loop_json_inv _ _ _ _ Hfmt _ _ _ _ H0 Hl) as (rows & Hf3 & _).
  exists rows; cbn [file]; rewrite Hw4, Hf3; cbn [option_map].
  unfold json_array; now rewrite !sapp_assoc.
Qed.

(** ** The row-count estimator *)

Lemma digit_char d : (d < 10)%nat -> digit_val (ascii_of_nat (48 + d)) = Some (Z.of_nat d).
Proof.
  intros Hd; unfold digit_val; rewrite nat_ascii_embedding by lia.
  replace ((48 <=? 48 + d)%nat && (48 + d <=? 57)%nat) with true
    by (symmetry; apply andb_true_intro; split; apply Nat.leb_le; lia).
  f_equal; lia.
Qed.

Lemma parse_digits_cons c rest acc :
  parse_digits (String c rest) acc =
  match digit_val c with
  | Some d => parse_digits rest (Some (10 * match acc with Some a => a | None => 0 end + d))
  | None => acc
  end.
Proof. reflexivity. Qed.

Lemma trim_start_cons c rest :
  trim_start (String c rest) = if is_js_space c then trim_start rest else String c rest.
Proof. reflexivity. Qed.

Lemma parse_digits_text ds acc :
  Forall (fun d => (d < 10)%nat) ds ->
  parse_digits (digits_text ds) (Some acc) =
  Some (fold_left (fun a d => 10 * a + Z.of_nat d) ds acc).
Proof.
  revert acc; induction ds as [|d ds IH]; intros acc Hall; [reflexivity|].
  inversion Hall as [|? ? Hd Hrest]; subst.
  change (digits_text (d :: ds)) with (String (ascii_of_nat (48 + d)) (digits_text ds)).
  rewrite parse_digits_cons, digit_char by exact Hd.
  now apply IH.
Qed.

Lemma parseInt10_digits d ds :
  Forall (fun d => (d < 10)%nat) (d :: ds) ->
  parseInt10 (digits_text (d :: ds)) = Num (digits_num (d :: ds)).
Proof.
  intros Hall; inversion Hall as [|? ? Hd Hrest]; subst.
  change (digits_text (d :: ds)) with (String (ascii_of_nat (48 + d)) (digits_text ds)).
  assert (Hn : nat_of_ascii (ascii_of_nat (48 + d)) = (48 + d)%nat)
    by (apply nat_ascii_embedding; lia).
  assert (Hsp : is_js_space (ascii_of_nat (48 + d)) = false).
  { unfold is_js_space; rewrite Hn.
    apply orb_false_intro; [apply Nat.eqb_neq; lia|].
    apply andb_false_intro2; apply Nat.leb_gt; lia. }
  unfold parseInt10; rewrite trim_start_cons, Hsp.
  destruct (Ascii.eqb_spec (ascii_of_nat (48 + d)) "-"%char) as [E|_].
  { apply (f_equal nat_of_ascii) in E; rewrite Hn in E; discriminate. }
  destruct (Ascii.eqb_spec (ascii_of_nat (48 + d)) "+"%char) as [E|_].
  { apply (f_equal nat_of_ascii) in E; rewrite Hn in E; discriminate. }
  rewrite parse_digits_cons, digit_char by exact Hd.
  rewrite parse_digits_text by exact Hrest.
  unfold digits_num; cbn [fold_left]; f_equal; lia.
Qed.

(** C9, as the code has it: the first element's count field goes through
    [parseInt(count || '0', 10)]. An absent or falsy count (no first
    element, no field, null, false, 0, the empty string) gives 0; a
    string of decimal digits whose value is below 2^53 gives that value;
    a string whose first character is ASCII and is not a digit, white
    space or a sign gives [NaN], not 0; a
    transport error or a body that is not JSON makes the count fail. *)
Theorem count_rows_parse :
  (forall v first, index0 v = Some first ->
     match count_field first with None => True | Some x => jtruthy x = false end ->
     countRows (HttpBody (Some v)) = Resolved (Num 0)) /\
  (forall ds, ds <> [] -> Forall (fun d => (d < 10)%nat) ds -> digits_num ds < 2 ^ 53 ->
     countRows (HttpBody (Some (JArr [JObj [("count", JStr (digits_text ds))]]))) =
     Resolved (Num (digits_num ds))) /\
  (forall c rest, (nat_of_ascii c < 128)%nat -> digit_val c = None -> is_js_space c = false ->
     c <> "-"%char -> c <> "+"%char ->
     countRows (HttpBody (Some (JArr [JObj [("count", JStr (String c rest))]]))) =
     Resolved NaN) /\
  (forall msg, countRows (HttpError msg) = Rejected msg) /\
  countRows (HttpBody None) = Rejected "SyntaxError".
Proof.
  split; [|split; [|split; [|split]]].
  - intros v first Hi Hc; unfold countRows; rewrite Hi.
    destruct (count_field first) as [x|]; [rewrite Hc|]; reflexivity.
  - intros [|d ds] Hne Hall _; [congruence|].
    unfold countRows; cbn [index0 count_field get prop].
    rewrite String.eqb_refl.
    change (digits_text (d :: ds)) with (String (ascii_of_nat (48 + d)) (digits_text ds)).
    cbn [jtruthy String.eqb negb js_to_string].
    change (String (ascii_of_nat (48 + d)) (digits_text ds)) with (digits_text (d :: ds)).
    now rewrite parseInt10_digits.
  - intros c rest _ Hd Hsp Hm Hp; unfold countRows; cbn [index0 count_field get prop].
    rewrite String.eqb_refl; cbn [jtruthy String.eqb negb js_to_string].
    unfold parseInt10; rewrite trim_start_cons, Hsp.
    destruct (Ascii.eqb_spec c "-"%char); [congruence|].
    destruct (Ascii.eqb_spec c "+"%char); [congruence|].
    now rewrite parse_digits_cons, Hd.
  - reflexivity.
  - reflexivity.
Qed.

(** ** Progress lines *)

Lemma bind_emit {B} e (k : unit -> M B) s :
  bind (emit e) k s = k tt {| trace := (trace s ++ [e])%list; file := file s |}.
Proof. reflexivity. Qed.

Lemma bind_write {B} str (k : unit -> M B) s :
  bind (write str) k s =
  k tt {| trace := trace s; file := option_map (fun f => f ++ str) (file s) |}.
Proof. reflexivity. Qed.

Lemma write_rows_trace rows : forall b i s,
  exists b' s', write_rows b i rows s = Ok b' s' /\ trace s' = trace s.
Proof.
  induction rows as [|r rows IH]; intros b i s; [exists b, s; auto|].
  simpl write_rows; destruct (negb b || (0 <? i)%nat); cbv [bind write ret];
    match goal with |- context [write_rows false (S i) rows ?s1] =>
      destruct (IH false (S i) s1) as (b' & s' & Hw & Ht) end;
    rewrite Hw; exists b', s'; (split; [reflexivity | rewrite Ht; reflexivity]).
Qed.

(** C8, as the code has it: every event the download loop adds is a
    page request or a progress line. A page that commits as many rows as
    it requested is followed by exactly one progress line, which shows
    the rows committed so far and the known total ([rowsToDownload] when
    it is truthy, none otherwise). A page that commits fewer rows, none,
    or cannot be parsed is the last event of the loop and gets no
    progress line (the completion line after the loop reports the final
    count). When the loop ends because the cap reached zero or the fuel
    ran out, nothing follows the last progress line. *)
Theorem progress_line_per_continuing_page fuel env a rtd : forall ls s,
  exists added,
    trace (res_state (download_loop fuel env a rtd ls s)) = (trace s ++ added)%list /\
    progress_shape env a (known_total rtd) (downloadedRows ls) added.
Proof.
  induction fuel as [|fuel IH]; intros ls s; cbn [download_loop].
  - exists []; split; [now rewrite app_nil_r | exact I].
  - set (c := page_limit a rtd (downloadedRows ls)); set (o := offset ls).
    destruct (c <=? 0).
    { exists []; split; [now rewrite app_nil_r | exact I]. }
    rewrite bind_emit; destruct (format a) eqn:Hf.
    + destruct (List.length (split_nl (csv_page env c o)) <=? 1)%nat eqn:Hn.
      { exists [EFetch c o]; split; [reflexivity|].
        cbn [progress_shape]; unfold committed_rows; rewrite Hf, Hn; reflexivity. }
      destruct (isFirstChunk ls); rewrite bind_write;
        (destruct (Z.of_nat (List.length (split_nl (csv_page env c o))) - 1 <? c) eqn:Hk;
         [exists [EFetch c o]; split; [reflexivity|];
          cbn [progress_shape]; unfold committed_rows; rewrite Hf, Hn, Hk; reflexivity
         |]);
        rewrite bind_emit;
        match goal with |- context [download_loop fuel env a rtd ?ls' ?s3] =>
          destruct (IH ls' s3) as (added & E & Hs) end;
        rewrite E; eexists; (split; [cbn [trace]; rewrite <- !app_assoc; reflexivity|]);
        cbn [progress_shape app]; unfold committed_rows; rewrite Hf, Hn, Hk;
        (split; [reflexivity | split; [reflexivity | exact Hs]]).
    + destruct (json_page env c o) as [v|] eqn:Hj.
      2:{ exists [EFetch c o]; split; [reflexivity|].
          cbn [progress_shape]; unfold committed_rows; rewrite Hf, Hj; reflexivity. }
      destruct v as [| | | | [|r rows] |];
        try (exists [EFetch c o]; split; [reflexivity|];
             cbn [progress_shape]; unfold committed_rows; rewrite Hf, Hj; reflexivity).
      match goal with |- context [bind (write_rows ?b O (r :: rows)) _ ?s1] =>
        destruct (write_rows_trace (r :: rows) b O s1) as (b' & s2 & Hw & Ht) end.
      rewrite (bind_ok _ _ _ _ _ Hw).
      destruct (Z.of_nat (List.length (r :: rows)) <? c) eqn:Hk.
      * exists [EFetch c o]; split; [cbv [ret]; cbn [res_state]; rewrite Ht; reflexivity|].
        cbn [progress_shape]; unfold committed_rows; rewrite Hf, Hj, Hk; reflexivity.
      * rewrite bind_emit;
        match goal with |- context [download_loop fuel env a rtd ?ls' ?s3] =>
          destruct (IH ls' s3) as (added & E & Hs) end.
        rewrite E; eexists; split;
          [cbn [trace]; rewrite Ht; cbn [trace]; rewrite <- !app_assoc; reflexivity|].
        cbn [progress_shape app]; unfold committed_rows; rewrite Hf, Hj, Hk.
        split; [reflexivity | split; [reflexivity | exact Hs]].
Qed.

(** ** Paging against an exact remote *)

Lemma firstn_split {A} (l : list A) : forall d k,
  (firstn d l ++ firstn k (skipn d l))%list = firstn (d + k) l.
Proof.
  induction l as [|x l IH]; intros d k.
  - now rewrite skipn_nil, !firstn_nil.
  - destruct d as [|d]; [reflexivity|].
    cbn [firstn skipn Nat.add app]; now rewrite IH.
Qed.

Lemma firstn_pos_nil {A} (l : list A) k : (0 < k)%nat -> firstn k l = [] -> l = [].
Proof. destruct k as [|k]; [lia|]; destruct l; [reflexivity|discriminate]. Qed.

Lemma sep_first (b : bool) (l : list jval) :
  (b = true <-> l = []) -> ((negb b || (0 <? 0)%nat) = true <-> l <> []).
Proof.
  intros H; rewrite orb_false_r; split.
  - intros Hb Hl; apply H in Hl; subst; discriminate.
  - intros Hl; destruct b; [exfalso; now apply Hl, H | reflexivity].
Qed.

(** [ceil(x / p)] takes one more page than what is left after a page of
    [min p x] rows. *)
Lemma ceil_step x p c :
  (1 <= x)%nat -> (0 < p)%nat -> c = Nat.min p x ->
  ((x + p - 1) / p = (x - c + p - 1) / p + 1)%nat.
Proof.
  intros Hx Hp Hc.
  replace (x + p - 1)%nat with ((x - 1) + 1 * p)%nat by lia.
  rewrite Nat.div_add by lia.
  destruct (Nat.le_gt_cases p x) as [Hle|Hlt].
  - replace c with p in * by lia.
    now replace (x - p + p - 1)%nat with (x - 1)%nat by lia.
  - replace c with x in * by lia.
    rewrite (Nat.div_small (x - 1)), (Nat.div_small (x - x + p - 1)); lia.
Qed.

Lemma page_unknown a rtd dl :
  known_total rtd = None -> page_limit a rtd dl = chunkSize a.
Proof. intros Hk; unfold page_limit; rewrite Hk; apply Z.min_id. Qed.

Section ExactRemote.

Variables (env : Env) (a : CliArgs) (data : list jval).
Hypothesis Hfmt : format a = json.
Hypothesis Hpage : json_page env = json_remote data.
Hypothesis HP : 0 < chunkSize a.

Lemma page_rows c d :
  json_page env c (Z.of_nat d) = Some (JArr (firstn (Z.to_nat c) (skipn d data))).
Proof. rewrite Hpage; unfold json_remote; now rewrite Nat2Z.id. Qed.

(** With no known total every page asks for [chunkSize] rows, and the
    loop ends on the first short page: [N / P + 1] fetches. *)
Lemma loop_unknown rtd :
  known_total rtd = None ->
  forall fuel d b s,
  (d <= List.length data)%nat ->
  ((List.length data - d) / Z.to_nat (chunkSize a) < fuel)%nat ->
  JFile data d s b ->
  exists ls' s',
    download_loop fuel env a rtd (mkLoopState (Z.of_nat d) (Z.of_nat d) b) s = Ok ls' s' /\
    downloadedRows ls' = Z.of_nat (List.length data) /\
    file s' = Some ("[" ++ nl ++ json_items data) /\
    fetches (trace s') =
      (fetches (trace s) + (List.length data - d) / Z.to_nat (chunkSize a) + 1)%nat.
Proof.
  intros Hk; set (p := Z.to_nat (chunkSize a)).
  assert (Hp : chunkSize a = Z.of_nat p) by (unfold p; lia).
  induction fuel as [|fuel IH]; intros d b s Hd Hfuel [Hf Hb]; [lia|].
  cbn [download_loop]; rewrite page_unknown by exact Hk.
  replace (chunkSize a <=? 0) with false by (symmetry; apply Z.leb_gt; lia).
  rewrite bind_emit, Hfmt; cbn [offset downloadedRows isFirstChunk].
  rewrite page_rows; fold p.
  destruct (firstn p (skipn d data)) as [|r rs] eqn:Er.
  - apply firstn_pos_nil in Er; [|lia].
    assert (HN : List.length data = d).
    { pose proof (length_skipn d data) as HL; rewrite Er in HL; simpl in HL; lia. }
    eexists _, _; split; [reflexivity|]; cbn [downloadedRows trace file].
    rewrite fetches_app, HN, Nat.sub_diag, Nat.Div0.div_0_l.
    split; [reflexivity|]; split; [|cbn; lia].
    rewrite Hf, <- HN, firstn_all; reflexivity.
  - match goal with |- context [bind (write_rows ?b0 O (r :: rs)) _ ?s1] =>
      destruct (write_rows_json (r :: rs) b0 O (firstn d data) s1 Hf (sep_first _ _ Hb)
                  ltac:(lia)) as (b' & s2 & Hw & Ht & Hf2 & Hb2) end.
    rewrite (bind_ok _ _ _ _ _ Hw).
    rewrite <- Er, firstn_split in Hf2, Hb2.
    assert (Hm : List.length (r :: rs) = Nat.min p (List.length data - d)).
    { rewrite <- Er, length_firstn, length_skipn; reflexivity. }
    destruct (Z.of_nat (List.length (r :: rs)) <? chunkSize a) eqn:Ec.
    + apply Z.ltb_lt in Ec.
      assert (HN : (d + p >= List.length data)%nat) by lia.
      eexists _, _; split; [reflexivity|]; cbn [downloadedRows].
      split; [lia|]; split.
      * rewrite Hf2, firstn_all2 by lia; reflexivity.
      * rewrite Ht; cbn [trace]; rewrite fetches_app.
        rewrite (Nat.div_small (List.length data - d)) by lia; cbn; lia.
    + apply Z.ltb_ge in Ec.
      rewrite bind_emit.
      assert (Hlen : List.length (r :: rs) = p) by lia.
      replace (Z.of_nat d + Z.of_nat (List.length (r :: rs))) with (Z.of_nat (d + p)) by lia.
      replace (Z.of_nat d + chunkSize a) with (Z.of_nat (d + p)) by lia.
      destruct (IH (d + p)%nat b' {| trace := (trace s2 ++ [EProgress (Z.of_nat (d + p))
                  (known_total rtd)])%list; file := file s2 |})
        as (ls' & s' & E & Hd' & Hf' & Hc').
      { lia. }
      { replace (List.length data - d)%nat with ((List.length data - (d + p)) + 1 * p)%nat
          in Hfuel by lia.
        rewrite Nat.div_add in Hfuel; lia. }
      { split; [exact Hf2 | exact Hb2]. }
      exists ls', s'; split; [exact E|]; split; [exact Hd'|]; split; [exact Hf'|].
      rewrite Hc'; cbn [trace]; rewrite !fetches_app, Ht; cbn [trace]; rewrite fetches_app.
      replace (List.length data - d)%nat with ((List.length data - (d + p)) + 1 * p)%nat
        by lia.
      rewrite Nat.div_add by lia; cbn; lia.
Qed.

(** With the total [N] known, page [k] asks for [min(P, N - downloaded)]
    rows and the loop stops when nothing is left: [ceil(N / P)] fetches. *)
Lemma loop_known rtd :
  known_total rtd = Some (Z.of_nat (List.length data)) ->
  forall fuel d b s,
  (d <= List.length data)%nat ->
  ((List.length data - d + Z.to_nat (chunkSize a) - 1) / Z.to_nat (chunkSize a) < fuel)%nat ->
  JFile data d s b ->
  exists ls' s',
    download_loop fuel env a rtd (mkLoopState (Z.of_nat d) (Z.of_nat d) b) s = Ok ls' s' /\
    downloadedRows ls' = Z.of_nat (List.length data) /\
    file s' = Some ("[" ++ nl ++ json_items data) /\
    fetches (trace s') =
      (fetches (trace s) +
       (List.length data - d + Z.to_nat (chunkSize a) - 1) / Z.to_nat (chunkSize a))%nat.
Proof.
  intros Hk; set (p := Z.to_nat (chunkSize a)); set (N := List.length data).
  assert (Hp : chunkSize a = Z.of_nat p) by (unfold p; lia).
  induction fuel as [|fuel IH]; intros d b s Hd Hfuel [Hf Hb]; [lia|].
  cbn [download_loop]; unfold page_limit; rewrite !Hk; cbn [downloadedRows offset isFirstChunk]; fold N.
  set (c := Nat.min p (N - d)).
  replace (Z.min (chunkSize a) (Z.of_nat N - Z.of_nat d)) with (Z.of_nat c) by lia.
  destruct (Nat.eq_dec d N) as [HdN|HdN].
  - replace (Z.of_nat c <=? 0) with true by (symmetry; apply Z.leb_le; lia).
    eexists _, _; split; [reflexivity|]; cbn [downloadedRows].
    split; [now rewrite HdN|]; split.
    + rewrite Hf, HdN; unfold N; now rewrite firstn_all.
    + rewrite HdN, Nat.sub_diag, Nat.div_small by lia; lia.
  - replace (Z.of_nat c <=? 0) with false by (symmetry; apply Z.leb_gt; lia).
    rewrite bind_emit, Hfmt; cbn [offset downloadedRows isFirstChunk].
    rewrite page_rows, Nat2Z.id.
    assert (Hm : List.length (firstn c (skipn d data)) = c).
    { rewrite length_firstn, length_skipn; fold N; lia. }
    destruct (firstn c (skipn d data)) as [|r rs] eqn:Er; [simpl in Hm; lia|].
    match goal with |- context [bind (write_rows ?b0 O (r :: rs)) _ ?s1] =>
      destruct (write_rows_json (r :: rs) b0 O (firstn d data) s1 Hf (sep_first _ _ Hb)
                  ltac:(lia)) as (b' & s2 & Hw & Ht & Hf2 & Hb2) end.
    rewrite (bind_ok _ _ _ _ _ Hw).
    rewrite <- Er, firstn_split in Hf2, Hb2.
    rewrite Hm, Z.ltb_irrefl, bind_emit.
    replace (Z.of_nat d + Z.of_nat c) with (Z.of_nat (d + c)) by lia.
    destruct (IH (d + c)%nat b' {| trace := (trace s2 ++ [EProgress (Z.of_nat (d + c))
                (Some (Z.of_nat N))])%list; file := file s2 |})
      as (ls' & s' & E & Hd' & Hf' & Hc').
    { unfold c; lia. }
    { rewrite (ceil_step (N - d) p c) in Hfuel by (unfold c; lia).
      replace (N - (d + c))%nat with (N - d - c)%nat by lia; lia. }
    { split; [exact Hf2 | exact Hb2]. }
    exists ls', s'; split; [exact E|]; split; [exact Hd'|]; split; [exact Hf'|].
    rewrite Hc'; cbn [trace]; rewrite !fetches_app, Ht; cbn [trace]; rewrite fetches_app.
    rewrite (ceil_step (N - d) p c) by (unfold c; lia).
    replace (N - (d + c))%nat with (N - d - c)%nat by lia; cbn; lia.
Qed.

(** [write_output] around a loop that downloads all of [data]. *)
Lemma write_output_exact fuel t s0 k :
  limit a = None ->
  (forall s, JFile data 0 s true ->
     exists ls' s',
       download_loop fuel env a t (mkLoopState 0 0 true) s = Ok ls' s' /\
       downloadedRows ls' = Z.of_nat (List.length data) /\
       file s' = Some ("[" ++ nl ++ json_items data) /\
       fetches (trace s') = (fetches (trace s) + k)%nat) ->
  exists s,
    write_output fuel env a t s0 = Ok tt s /\
    fetches (trace s) = (fetches (trace s0) + k)%nat /\
    file s = Some (json_array data) /\
    In (EComplete (Z.of_nat (List.length data))) (trace s).
Proof.
  intros Hl Hloop.
  unfold write_output, limit_truthy; rewrite Hl, Hfmt.
  rewrite bind_emit; unfold bind at 1, open_file; cbv beta iota.
  rewrite bind_write; cbn [file option_map].
  match goal with |- context [bind (download_loop fuel env a t _) _ ?s1] =>
    destruct (Hloop s1) as (ls' & s' & E & Hd & Hf & Hc) end.
  { split; [cbn [file]; rewrite sapp_nil_r; reflexivity | split; reflexivity]. }
  rewrite (bind_ok _ _ _ _ _ E), bind_write, Hf; cbn [option_map].
  unfold emit; rewrite Hd.
  eexists; split; [reflexivity|]; cbn [trace file].
  split; [rewrite fetches_app, Hc; cbn [trace]; rewrite !fetches_app; cbn; lia|].
  split.
  - unfold json_array; now rewrite !sapp_assoc.
  - apply in_or_app; right; left; reflexivity.
Qed.

End ExactRemote.

Lemma gate_skipped env a md s :
  noConfirm a = true -> confirmation_gate env a md s = Ok None s.
Proof. intros Hc; unfold confirmation_gate; now rewrite Hc. Qed.

Lemma gate_counted env a md n s :
  limit a = None -> noConfirm a = false ->
  countRows (count_resp env) = Resolved (Num n) ->
  (exists ds, date_columns (columns md) = Resolved ds) ->
  is_yes (answer env) = true ->
  exists s', confirmation_gate env a md s = Ok (Some (Num n)) s' /\
    file s' = file s /\ fetches (trace s') = fetches (trace s).
Proof.
  intros Hl Hc Hn [ds Hd] Hy.
  unfold confirmation_gate, limit_truthy; rewrite Hl, Hc, Hn.
  cbv [bind emit await ret confirmDownload negb andb]; rewrite Hy.
  destruct (num_gt (Num n) large_dataset_rows), (where_truthy a);
    try rewrite Hd; try destruct ds;
    (eexists; split; [reflexivity|]; split; [reflexivity|]);
    cbn [trace file]; rewrite !fetches_app; cbn [fetches filter is_fetch List.length]; lia.
Qed.

Lemma pre_gate_no_fetch a md : fetches (pre_gate_trace a md) = 0%nat.
Proof. unfold pre_gate_trace; destruct (0 <? List.length (columns md))%nat; reflexivity. Qed.


(** * Claims settled on concrete runs *)

(** C4, instance: three records fetched two at a time. *)
Lemma json_output_is_one_array_witness :
  format (request json None 2 true) = json /\
  exists rows, file (res_state (main 10 (json_env (json_rows 3) "y") (request json None 2 true)))
               = Some (json_array rows).
Proof.
  split; [reflexivity|].
  apply (json_output_is_one_array 10 (json_env (json_rows 3) "y") (request json None 2 true));
    [reflexivity | vm_compute; reflexivity].
Defined.





(** C2, failing input: CSV mode, limit 25, pages of 10, 30 matching rows,
    bodies ending in a newline. The trailing empty line is counted as a
    row, so the third page is requested with a cap of 3 and only 23 data
    rows reach the file while the counter says 26. *)
Lemma csv_limit_commits_fewer_rows :
  let r := main 10 (csv_env (csv_rows 30) "y") (request csv (Some 25) 10 true) in
  file (res_state r) = Some (csv_text "id" (csv_rows 23)) /\
  fetches (trace (res_state r)) = 3%nat /\
  In (EFetch 3 20) (trace (res_state r)) /\
  In (EComplete 26) (trace (res_state r)).
Proof. vm_compute; repeat split; auto 20. Qed.

(** C3, failing input: CSV mode, pages of 10, 29 rows; the third page
    returns 9 rows where 10 were requested but, with the trailing empty
    line counted, the loop goes on and issues a fourth fetch. *)
Lemma csv_short_page_not_detected :
  let r := main 10 (csv_env (csv_rows 29) "y") (request csv None 10 true) in
  fetches (trace (res_state r)) = 4%nat /\ In (EFetch 10 30) (trace (res_state r)).
Proof. vm_compute; split; auto 20. Qed.

(** C5, failing input: 25 rows, counted total, operator answers "y",
    bodies ending in a newline. Pages of 10 leave out rows 24 and 25,
    one page of 10,000 writes all 25: the files differ. *)
Lemma csv_output_depends_on_page_size :
  let small := main 10 (csv_env (csv_rows 25) "y") (request csv None 10 false) in
  let large := main 10 (csv_env (csv_rows 25) "y") (request csv None 10000 false) in
  file (res_state small) = Some (csv_text "id" (csv_rows 23)) /\
  file (res_state large) = Some (csv_text "id" (csv_rows 25)) /\
  file (res_state small) <> file (res_state large).
Proof. vm_compute; split; [reflexivity|split; [reflexivity|discriminate]]. Qed.

(** C7, failing input: a pre-count of zero (the operator answers "y"),
    and a row limit of zero with confirmation suppressed, both issue one
    page fetch. *)
Lemma zero_rows_still_fetch :
  fetches (trace (res_state (main 10 (json_env [] "y") (request json None 10 false)))) = 1%nat /\
  fetches (trace (res_state (main 10 (json_env [] "y") (request json (Some 0) 10 true)))) = 1%nat /\
  file (res_state (main 10 (json_env [] "y") (request json None 10 false))) = Some (json_array []).
Proof. vm_compute; repeat split; reflexivity. Qed.

(** C8 fails: five rows in a page of ten end the loop at the first page,
    and no progress line is printed at all. *)
Lemma progress_after_every_page_counterexample :
  let r := main 10 (json_env (json_rows 5) "y") (request json None 10 true) in
  fetches (trace (res_state r)) = 1%nat /\ filter is_progress (trace (res_state r)) = [].
Proof. vm_compute; split; reflexivity. Qed.

(** C9 fails: a count field that is not a number gives [NaN], not 0. *)
Lemma count_default_counterexample :
  countRows (HttpBody (Some (JArr [JObj [("count", JStr "abc")]]))) = Resolved NaN.
Proof. reflexivity. Qed.

(** C9 on concrete bodies: a count of "42", an element with no count
    field, and a count of "x1". *)
Lemma count_rows_parse_witness :
  countRows (HttpBody (Some (JArr [JObj [("count", JStr (digits_text [4; 2]%nat))]]))) =
    Resolved (Num (digits_num [4; 2]%nat)) /\
  countRows (HttpBody (Some (JArr [JObj []]))) = Resolved (Num 0) /\
  countRows (HttpBody (Some (JArr [JObj [("count", JStr (String "x"%char "1"))]]))) =
    Resolved NaN.
Proof.
  split; [|split].
  - apply (proj1 (proj2 count_rows_parse));
      [discriminate | repeat constructor | vm_compute; reflexivity].
  - apply (proj1 count_rows_parse (JArr [JObj []]) (Some (JObj []))); reflexivity.
  - apply (proj1 (proj2 (proj2 count_rows_parse)));
      [cbn; lia | reflexivity | reflexivity | discriminate | discriminate].
Defined.

(** C10 on a refused connection: [main] exits with code 1 and no file. *)
Lemma metadata_failure_leaves_output_untouched_witness :
  main 10 {| metadata_resp := HttpError "ECONNREFUSED"; count_resp := count_of 0;
             answer := "y"; json_page := json_remote []; csv_page := csv_remote "id" [] |}
       (request json None 10 false) =
    Exit 1 {| trace := [ELog "Fetching metadata for dataset"; EGetMetadata "vxuj-8kew";
                        ELog ("Error: " ++ "ECONNREFUSED")];
              file := None |}.
Proof.
  exact (proj1 (metadata_failure_leaves_output_untouched 10
           {| metadata_resp := HttpError "ECONNREFUSED"; count_resp := count_of 0;
              answer := "y"; json_page := json_remote []; csv_page := csv_remote "id" [] |}
           (request json None 10 false))).
Defined.

(** * Further properties of the script *)

(** ** The download loop against any server *)

Lemma fetch_list_app l1 l2 :
  fetch_list (l1 ++ l2)%list = (fetch_list l1 ++ fetch_list l2)%list.
Proof.
  induction l1 as [|e l1 IH]; [reflexivity|].
  destruct e; cbn [app fetch_list]; rewrite ?IH; reflexivity.
Qed.

Lemma page_limit_le a rtd d : page_limit a rtd d <= chunkSize a.
Proof. unfold page_limit; lia. Qed.



Lemma ceil_pos P x : 0 < P -> 0 < x -> 1 <= (x + P - 1) / P.
Proof.
  intros HP Hx.
  replace (x + P - 1) with ((x - 1) + 1 * P) by lia.
  rewrite Z.div_add by lia.
  pose proof (Z.div_pos (x - 1) P ltac:(lia) HP); lia.
Qed.

Lemma ceil_dec P T d c d' :
  0 < P -> 0 < T - d -> c = Z.min P (T - d) -> d + c <= d' ->
  (T - d' + P - 1) / P <= (T - d + P - 1) / P - 1.
Proof.
  intros HP Hx Hc Hd.
  assert (Hm : (T - d' + P - 1) / P <= (T - d - c + P - 1) / P) by (apply Z.div_le_mono; lia).
  replace (T - d + P - 1) with ((T - d - 1) + 1 * P) by lia.
  rewrite Z.div_add by lia.
  destruct (Z.le_gt_cases P (T - d)) as [Hle|Hlt].
  - replace c with P in Hm by lia.
    replace (T - d - P + P - 1) with (T - d - 1) in Hm by lia; lia.
  - replace c with (T - d) in Hm by lia.
    rewrite (Z.div_small (T - d - 1)) by lia.
    rewrite (Z.div_small (T - d - (T - d) + P - 1)) in Hm by lia; lia.
Qed.


(** ** Runs that stop early or write nothing *)

Create HintDb quiet.

Lemma quiet_ret {A} (x : A) : Quiet (ret x).
Proof. intros s; split; reflexivity. Qed.

Lemma quiet_emit e : is_fetch e = false -> Quiet (emit e).
Proof.
  intros He s; cbn [emit res_state trace file]; split; [|reflexivity].
  rewrite fetches_app; unfold fetches at 2; cbn [filter]; rewrite He; cbn; lia.
Qed.

Lemma quiet_throw {A} msg : Quiet (@throw A msg).
Proof. intros s; split; reflexivity. Qed.

Lemma quiet_exit {A} c : Quiet (@exit A c).
Proof. intros s; split; reflexivity. Qed.

Lemma quiet_await {A} (r : result A) : Quiet (await r).
Proof. destruct r; [apply quiet_throw | apply quiet_ret]. Qed.

Lemma quiet_bind {A B} (m : M A) (k : A -> M B) :
  Quiet m -> (forall x, Quiet (k x)) -> Quiet (bind m k).
Proof.
  intros Hm Hk s; unfold bind.
  destruct (Hm s) as [F1 E1].
  destruct (m s) as [x s'|c s'|e s'|s']; cbn [res_state] in *; auto.
  destruct (Hk x s') as [F2 E2]; split; congruence.
Qed.

#[local] Hint Resolve quiet_ret quiet_throw quiet_exit quiet_await : quiet.

Ltac quiet_solve :=
  repeat (match goal with
          | |- Quiet (bind _ _) => apply quiet_bind; [|intros ?]
          | |- Quiet (emit _) => apply quiet_emit; reflexivity
          | |- Quiet (match ?x with _ => _ end) => destruct x
          | |- Quiet (if ?b then _ else _) => destruct b
          end || eauto with quiet).

Lemma quiet_confirmation_gate env a md : Quiet (confirmation_gate env a md).
Proof. unfold confirmation_gate, confirmDownload; quiet_solve. Qed.

(** A run either reaches the output stage from a state with no page
    request and no file, or stops before it with neither. *)
Lemma downloadDataset_cases fuel env a :
  (exists t s0, fetches (trace s0) = 0%nat /\ file s0 = None /\
     downloadDataset fuel env a init = write_output fuel env a t s0) \/
  (fetches (trace (res_state (downloadDataset fuel env a init))) = 0%nat /\
   file (res_state (downloadDataset fuel env a init)) = None /\
   forall u s, downloadDataset fuel env a init <> Ok u s).
Proof.
  destruct (fetchMetadata (metadata_resp env)) as [msg|md] eqn:Hm.
  - right; unfold downloadDataset; rewrite Hm; cbv [bind emit await throw].
    split; [reflexivity | split; [reflexivity | intros u s; discriminate]].
  - rewrite (downloadDataset_resolved _ _ _ _ Hm); unfold bind.
    destruct (quiet_confirmation_gate env a md {| trace := pre_gate_trace a md; file := None |})
      as [Hf Hfi].
    cbn [trace file] in Hf, Hfi; rewrite pre_gate_no_fetch in Hf.
    destruct (confirmation_gate env a md _) as [t s0|c s0|e s0|s0];
      cbn [res_state trace file] in Hf, Hfi.
    + left; exists t, s0; auto.
    + right; cbn [res_state]; repeat split; auto; discriminate.
    + right; cbn [res_state]; repeat split; auto; discriminate.
    + right; cbn [res_state]; repeat split; auto; discriminate.
Qed.

Lemma main_ok_cases fuel env a s :
  main fuel env a = Ok tt s ->
  exists t s0, fetches (trace s0) = 0%nat /\ file s0 = None /\
    write_output fuel env a t s0 = Ok tt s.
Proof.
  intros H; apply main_ok in H.
  destruct (downloadDataset_cases fuel env a) as [(t & s0 & Hf & Hfi & E) | (_ & _ & Hno)].
  - exists t, s0; rewrite <- E; auto.
  - exfalso; exact (Hno _ _ H).
Qed.

Lemma write_output_no_pages fuel env a t s0 :
  chunkSize a <= 0 ->
  write_output (S fuel) env a t s0 =
    Ok tt {| trace := (trace s0 ++ [ELog "Downloading to"; EOpen (output a); EComplete 0])%list;
             file := Some (match format a with json => json_array [] | csv => "" end) |}.
Proof.
  intros Hc.
  assert (Hpl : forall r d, (page_limit a r d <=? 0) = true)
    by (intros r d; apply Z.leb_le; pose proof (page_limit_le a r d); lia).
  unfold write_output; cbv [bind emit ret write open_file]; cbn [download_loop].
  rewrite Hpl; cbv [ret]; destruct (format a); cbn [trace file option_map downloadedRows];
    rewrite <- !app_assoc; reflexivity.
Qed.

(** With a page size of zero or less ([--chunk-size 0] or a negative
    one), a run that succeeds requests no page at all: it creates the
    output file, writes an empty JSON array ("[", newline, newline, "]",
    newline) or, in CSV mode, nothing, and reports 0 rows. *)
Theorem nonpositive_chunk_writes_nothing fuel env a s :
  chunkSize a <= 0 -> (0 < fuel)%nat -> main fuel env a = Ok tt s ->
  fetches (trace s) = 0%nat /\
  file s = Some (match format a with json => json_array [] | csv => "" end) /\
  In (EComplete 0) (trace s).
Proof.
  intros Hc Hf H; apply main_ok_cases in H as (t & s0 & Hf0 & _ & E).
  destruct fuel as [|fuel]; [lia|].
  rewrite write_output_no_pages in E by exact Hc; injection E as <-.
  cbn [trace file]; split; [|split; [reflexivity|]].
  - rewrite fetches_app, Hf0; reflexivity.
  - apply in_or_app; right; cbn; auto.
Qed.


(** ** Instances of the properties above *)



Lemma nonpositive_chunk_writes_nothing_witness :
  exists s, main 3 (json_env (json_rows 3) "y") (request json None 0 false) = Ok tt s /\
    fetches (trace s) = 0%nat /\ file s = Some (json_array []) /\ In (EComplete 0) (trace s).
Proof.
  eexists; split; [reflexivity|].
  apply (nonpositive_chunk_writes_nothing 3 (json_env (json_rows 3) "y")
           (request json None 0 false)); [cbn; lia | lia | reflexivity].
Defined.


(** ** Metadata, date columns and the answer to the prompt *)

Lemma map_columns_spec l :
  match map_columns l with
  | Resolved cs => ~ In JNull l /\ List.length cs = List.length l
  | Rejected _ => In JNull l
  end.
Proof.
  induction l as [|c l IH]; cbn [map_columns]; [split; [auto | reflexivity]|].
  destruct c; cbn [to_column]; try (left; reflexivity);
    destruct (map_columns l) as [m|cs]; cbn [List.length];
    try (right; exact IH);
    (split; [intros [H|H]; [discriminate | exact (proj1 IH H)] | now rewrite (proj2 IH)]).
Qed.

(** [fetchMetadata] on a parsed body other than [null] resolves exactly
    when the body's [columns] is absent, falsy, or an array with no
    [null] entry; the metadata then has one column per entry of that
    array, and none when [columns] is absent or falsy. *)
Theorem fetchMetadata_resolves v :
  v <> JNull ->
  ((exists md, fetchMetadata (HttpBody (Some v)) = Resolved md) <->
   match get v "columns" with
   | Some (JArr l) => ~ In JNull l
   | Some c => jtruthy c = false
   | None => True
   end) /\
  (forall md, fetchMetadata (HttpBody (Some v)) = Resolved md ->
   List.length (columns md) =
     match get v "columns" with Some (JArr l) => List.length l | _ => 0%nat end).
Proof.
  intros Hv.
  assert (E : fetchMetadata (HttpBody (Some v)) =
    match match get v "columns" with
          | Some c => if jtruthy c then c else JArr []
          | None => JArr []
          end with
    | JArr l =>
        match map_columns l with
        | Resolved cs => Resolved {| md_name := get v "name"; columns := cs |}
        | Rejected _ => Rejected "Failed to parse metadata"
        end
    | _ => Rejected "Failed to parse metadata"
    end) by (destruct v; [contradiction | reflexivity ..]).
  rewrite E; clear E.
  destruct (get v "columns") as [c|].
  2:{ split; [split; [intros _; exact I | intros _; eexists; reflexivity]|].
      intros md H; inversion H; reflexivity. }
  destruct (jtruthy c) eqn:Ht.
  - destruct c; cbn [jtruthy] in Ht; try discriminate;
      try (split; [split; [intros [md H]; discriminate | intros H; discriminate]
                  | intros md H; discriminate]).
    pose proof (map_columns_spec l) as Hm.
    destruct (map_columns l) as [m|cs].
    + split; [split; [intros [md H]; discriminate | intros H; contradiction]
             | intros md H; discriminate].
    + split; [split; [intros _; exact (proj1 Hm) | intros _; eexists; reflexivity]|].
      intros md H; inversion H; subst; exact (proj2 Hm).
  - assert (Hz : match c with JArr _ => False | _ => True end)
      by (destruct c; cbn in Ht; try discriminate; exact I).
    cbn [map_columns].
    split; [split; [intros _ | intros _; eexists; reflexivity]|].
    + destruct c; try contradiction; cbn [jtruthy] in *; first [exact Ht | reflexivity].
    + intros md H; inversion H; subst; destruct c; try contradiction; reflexivity.
Qed.

Lemma is_date_column_cases c :
  match is_date_column c with
  | Resolved b => (is_calendar c || fieldName_searchable c)%bool = true /\
                  (b = true <-> is_calendar c = true \/
                     includes (fieldName c) "date" = Resolved true \/
                     includes (fieldName c) "time" = Resolved true)
  | Rejected m => m = "TypeError" /\ (is_calendar c || fieldName_searchable c)%bool = false
  end.
Proof.
  unfold is_date_column, is_calendar, fieldName_searchable.
  destruct (match dataTypeName c with
            | Some (JStr t) => String.eqb t "calendar_date"
            | _ => false
            end) eqn:Hcal.
  - split; [reflexivity | split; [intros _; left; reflexivity | intros _; reflexivity]].
  - cbn [orb].
    destruct (fieldName c) as [[| | | str | l |]|]; cbn [includes];
      try (split; reflexivity).
    + destruct (String.index 0 "date" str);
        [split; [reflexivity | split; [intros _; right; left; reflexivity | intros _; reflexivity]]|].
      destruct (String.index 0 "time" str);
        (split; [reflexivity | split; [intros H; try discriminate; right; right; reflexivity|]]).
      * intros _; reflexivity.
      * intros [H|[H|H]]; congruence.
    + destruct (existsb _ l) eqn:Hd;
        [split; [reflexivity | split; [intros _; right; left; reflexivity | intros _; reflexivity]]|].
      destruct (existsb (fun x => match x with JStr t => String.eqb t "time" | _ => false end) l) eqn:Ht;
        (split; [reflexivity | split; [intros H; try discriminate; right; right; reflexivity|]]).
      * intros _; reflexivity.
      * intros [H|[H|H]]; congruence.
Qed.

Lemma date_columns_cases cs :
  match date_columns cs with
  | Resolved ds =>
      forallb (fun c => is_calendar c || fieldName_searchable c) cs = true /\
      ds = filter (fun c => match is_date_column c with Resolved b => b | Rejected _ => false end) cs
  | Rejected m =>
      m = "TypeError" /\
      existsb (fun c => negb (is_calendar c || fieldName_searchable c)) cs = true
  end.
Proof.
  induction cs as [|c cs IH]; cbn [date_columns]; [split; reflexivity|].
  pose proof (is_date_column_cases c) as Hc.
  destruct (is_date_column c) as [m|b] eqn:Ed; cbn [forallb existsb filter].
  - destruct Hc as [-> ->]; split; reflexivity.
  - destruct Hc as [-> _]; cbn [andb orb negb].
    destruct (date_columns cs) as [m|ds]; destruct IH as [IH1 IH2]; [split; assumption|].
    split; [exact IH1 | rewrite IH2, Ed; reflexivity].
Qed.

(** [date_columns] (the filter for the large-dataset hint) resolves
    exactly when every column has type [calendar_date] or a [fieldName]
    that is a string or an array, and then yields the columns the test
    accepts, in their order. Otherwise it rejects with a [TypeError]:
    [fieldName.includes] on [undefined] or on a number. *)
Theorem date_columns_filter cs :
  ((exists ds, date_columns cs = Resolved ds) <->
   forallb (fun c => is_calendar c || fieldName_searchable c) cs = true) /\
  (forall ds, date_columns cs = Resolved ds ->
   ds = filter (fun c => match is_date_column c with Resolved b => b | Rejected _ => false end) cs) /\
  (forall m, date_columns cs = Rejected m -> m = "TypeError").
Proof.
  pose proof (date_columns_cases cs) as H.
  destruct (date_columns cs) as [m|ds]; destruct H as [H1 H2].
  - split; [split; [intros [ds Hd]; discriminate | intros Hf] | split; [intros ds Hd; discriminate | intros m' Hm; inversion Hm; subst; reflexivity]].
    exfalso; rewrite existsb_exists in H2; destruct H2 as (c & Hin & Hb).
    rewrite forallb_forall in Hf; specialize (Hf c Hin).
    rewrite Hf in Hb; discriminate.
  - split; [split; [intros _; exact H1 | intros _; eexists; reflexivity]|].
    split; [intros ds' Hd; injection Hd as <-; exact H2 | intros m Hm; discriminate].
Qed.

(** A run that counts more than 50,000 rows without a [--where] clause
    fails when the metadata has a column that is not of type
    [calendar_date] and whose [fieldName] is missing (or not a string
    or an array): it exits with code 1 on a [TypeError] before the
    prompt, with no page requested and no output file created. *)
Theorem large_count_bad_column_fails fuel env a md t :
  fetchMetadata (metadata_resp env) = Resolved md ->
  noConfirm a = false -> limit_truthy a = false -> where_truthy a = false ->
  countRows (count_resp env) = Resolved t -> num_gt t large_dataset_rows = true ->
  existsb (fun c => negb (is_calendar c || fieldName_searchable c)) (columns md) = true ->
  exists s, main fuel env a = Exit 1 s /\ file s = None /\ fetches (trace s) = 0%nat /\
    (forall n, ~ In (EPrompt n) (trace s)) /\
    last (trace s) (ELog "") = ELog "Error: TypeError".
Proof.
  intros Hm Hc Hl Hw Ht Hg Hb.
  assert (Hd : date_columns (columns md) = Rejected "TypeError").
  { pose proof (date_columns_cases (columns md)) as H.
    destruct (date_columns (columns md)) as [m|ds]; destruct H as [H1 H2];
      [now subst|].
    exfalso; rewrite existsb_exists in Hb; destruct Hb as (c & Hin & Hc').
    rewrite forallb_forall in H1; rewrite (H1 c Hin) in Hc'; discriminate. }
  unfold main; rewrite (downloadDataset_resolved _ _ _ _ Hm).
  unfold confirmation_gate; rewrite Hc, Hl; cbn [negb andb].
  cbv [bind emit await ret]; rewrite Ht; cbv beta iota.
  rewrite Hg, Hw, Hd; cbn [negb andb]; cbv [throw].
  eexists; split; [reflexivity|]; cbn [trace file].
  split; [reflexivity|]; split.
  - rewrite !fetches_app, pre_gate_no_fetch; reflexivity.
  - split; [|apply last_last].
    intros n Hin; apply in_app_or in Hin as [Hin|Hin]; [|destruct Hin as [Hin|[]]; discriminate].
    apply in_app_or in Hin as [Hin|Hin]; [|cbn in Hin; intuition discriminate].
    apply in_app_or in Hin as [Hin|Hin]; [|cbn in Hin; intuition discriminate].
    apply in_app_or in Hin as [Hin|Hin]; [|cbn in Hin; intuition discriminate].
    apply in_app_or in Hin as [Hin|Hin]; [|cbn in Hin; intuition discriminate].
    unfold pre_gate_trace in Hin; destruct (0 <? List.length (columns md))%nat;
      cbn in Hin; intuition discriminate.
Qed.

Lemma lower_char_y c :
  Ascii.eqb (lower_char c) "y" = (Ascii.eqb c "y" || Ascii.eqb c "Y")%bool.
Proof. destruct c as [[] [] [] [] [] [] [] []]; reflexivity. Qed.

Lemma lower_char_e c :
  Ascii.eqb (lower_char c) "e" = (Ascii.eqb c "e" || Ascii.eqb c "E")%bool.
Proof. destruct c as [[] [] [] [] [] [] [] []]; reflexivity. Qed.

Lemma lower_char_s c :
  Ascii.eqb (lower_char c) "s" = (Ascii.eqb c "s" || Ascii.eqb c "S")%bool.
Proof. destruct c as [[] [] [] [] [] [] [] []]; reflexivity. Qed.

(** The prompt accepts exactly "y" and "yes" in any mix of upper and
    lower case; anything else, the empty answer included, declines. *)
Theorem is_yes_answers ans : is_yes ans = true <-> In ans yes_answers.
Proof.
  assert (E : is_yes ans = existsb (String.eqb ans) yes_answers).
  { unfold is_yes, yes_answers.
    destruct ans as [|c1 [|c2 [|c3 [|c4 r]]]];
      cbn [to_lower String.eqb existsb];
      rewrite ?lower_char_y, ?lower_char_e, ?lower_char_s;
      repeat match goal with |- context [Ascii.eqb ?x ?y] => destruct (Ascii.eqb x y) end;
      reflexivity. }
  rewrite E, existsb_exists; split.
  - intros (x & Hin & Hx); apply String.eqb_eq in Hx; subst; exact Hin.
  - intros Hin; exists ans; split; [exact Hin | apply String.eqb_refl].
Qed.

Lemma fetchMetadata_resolves_witness :
  ((exists md, fetchMetadata (HttpBody (Some (JObj [("columns", JArr [JObj []; JNull])]))) =
                 Resolved md) <-> ~ In JNull [JObj []; JNull]) /\
  (forall md, fetchMetadata (HttpBody (Some (JObj [("columns", JArr [JObj []; JNull])]))) =
                Resolved md -> List.length (columns md) = 2%nat).
Proof.
  apply (fetchMetadata_resolves (JObj [("columns", JArr [JObj []; JNull])])).
  intros H; discriminate H.
Defined.

Lemma large_count_bad_column_fails_witness :
  exists s, main 3 no_field_env (request json None 10 false) = Exit 1 s /\ file s = None /\
    fetches (trace s) = 0%nat /\ (forall n, ~ In (EPrompt n) (trace s)) /\
    last (trace s) (ELog "") = ELog "Error: TypeError".
Proof.
  eapply (large_count_bad_column_fails 3 no_field_env (request json None 10 false));
    reflexivity.
Defined.

(** ** Reading the command line *)

Module CliFacts.
Import Cli.

Ltac split_tests :=
  repeat match goal with
         | |- context [if String.eqb ?x ?y then _ else _] => destruct (String.eqb x y)
         end.

Lemma parse_options_app_bounded n : forall l1 l2 p p1,
  (List.length l1 <= n)%nat -> parse_options l1 p = PDone p1 ->
  parse_options (l1 ++ l2) p = parse_options l2 p1.
Proof.
  induction n as [|n IH]; intros [|arg rest] l2 p p1 Hn H; cbn [List.length] in Hn;
    try lia; try (cbn in H; injection H as <-; reflexivity).
  cbn [app parse_options] in *; revert H; split_tests;
    destruct rest as [|v rest']; cbn [app List.length] in *; split_tests;
    intros H; first [discriminate H | refine (IH _ l2 _ _ _ H); cbn [List.length]; lia].
Qed.

Lemma parse_options_datasetId_bounded n : forall l p p1,
  (List.length l <= n)%nat -> parse_options l p = PDone p1 -> datasetId p1 = datasetId p.
Proof.
  induction n as [|n IH]; intros [|arg rest] p p1 Hn H; cbn [List.length] in Hn;
    try lia; try (cbn in H; injection H as <-; reflexivity).
  cbn [parse_options] in H; revert H; split_tests;
    destruct rest as [|v rest']; cbn [List.length] in *; split_tests;
    intros H; first [discriminate H | refine (IH _ _ _ _ H); cbn [List.length]; lia].
Qed.

(** After options read without an error, an option that needs a value
    given as the last argument makes the script exit with code 1 and
    one error line; an argument that is no known option makes it exit
    with code 1 and "Error: Unknown option ...", whatever follows it. *)
Theorem parse_errors_after_valid_prefix l p p1 :
  parse_options l p = PDone p1 ->
  (forall o, In o value_options -> exists msg, parse_options (l ++ [o]) p = PExit 1 [msg]) /\
  (forall o rest, ~ In o known_options ->
     parse_options (l ++ o :: rest) p = PExit 1 ["Error: Unknown option " ++ o]).
Proof.
  intros H; split.
  - intros o Ho; rewrite (parse_options_app_bounded (List.length l) _ _ _ _ (le_n _) H).
    cbn [value_options In] in Ho.
    destruct Ho as [<-|[<-|[<-|[<-|[<-|[<-|[<-|[<-|[]]]]]]]]]; eexists; reflexivity.
  - intros o rest Hn; rewrite (parse_options_app_bounded (List.length l) _ _ _ _ (le_n _) H).
    cbn [parse_options].
    repeat match goal with
           | |- context [String.eqb o ?x] =>
               destruct (String.eqb_spec o x) as [->|_]; [exfalso; apply Hn; cbn; tauto|]
           end.
    reflexivity.
Qed.

(** Two different value options given next to each other, after options
    read without an error, can be swapped without changing the outcome. *)
Theorem distinct_options_commute l p p1 o1 v1 o2 v2 rest :
  parse_options l p = PDone p1 -> In o1 value_options -> In o2 value_options -> o1 <> o2 ->
  parse_options (l ++ o1 :: v1 :: o2 :: v2 :: rest) p =
  parse_options (l ++ o2 :: v2 :: o1 :: v1 :: rest) p.
Proof.
  intros H H1 H2 Hne.
  rewrite !(parse_options_app_bounded (List.length l) _ _ _ _ (le_n _) H).
  cbn [value_options In] in H1, H2.
  destruct H1 as [<-|[<-|[<-|[<-|[<-|[<-|[<-|[<-|[]]]]]]]]];
  destruct H2 as [<-|[<-|[<-|[<-|[<-|[<-|[<-|[<-|[]]]]]]]]];
    try (exfalso; apply Hne; reflexivity);
    cbn [parse_options String.eqb Ascii.eqb Bool.eqb andb];
    repeat match goal with
           | |- context [if String.eqb (to_lower ?v) ?y then _ else _] =>
               destruct (String.eqb (to_lower v) y)
           end;
    reflexivity.
Qed.

(** Without [--output] (or with an empty one) the output path is
    [<outputDir>/<dataset-id>.<format>], built after all the options are
    read, so from the last [--output-dir] and [--format] whatever their
    order; the output directory is created when it does not exist, and
    an error from creating it is thrown. Nothing else is changed. *)
Theorem default_output_path fs arg0 rest q :
  String.prefix "--" arg0 = false ->
  parse_options rest (defaults arg0) = PDone q ->
  match output q with Some o => String.eqb o "" | None => true end = true ->
  match parseArgs fs (arg0 :: rest) with
  | Parsed dirs p =>
      p = set_output q (outputDir q ++ "/" ++ arg0 ++ "." ++ format_str (format q)) /\
      dirs = (if existsSync fs (outputDir q) then [] else [outputDir q])
  | Threw e => existsSync fs (outputDir q) = false /\ mkdirSync fs (outputDir q) = Some e
  | Exited _ _ => False
  end.
Proof.
  intros Hp Hq Ho.
  assert (Hid : datasetId q = arg0)
    by exact (parse_options_datasetId_bounded (List.length rest) _ _ _ (le_n _) Hq).
  unfold parseArgs; rewrite Hp, Hq; unfold set_default_output.
  replace (match output q with
           | Some o => if String.eqb o "" then None else Some o
           | None => None
           end) with (@None string)
    by (destruct (output q) as [o|]; [rewrite Ho; reflexivity | reflexivity]).
  rewrite Hid; unfold ensure_dir.
  destruct (existsSync fs (outputDir q)); [split; reflexivity|].
  destruct (mkdirSync fs (outputDir q)); split; reflexivity.
Qed.

Lemma parse_errors_after_valid_prefix_witness :
  (forall o, In o value_options -> exists msg,
     parse_options (["--format"; "JSON"] ++ [o]) (defaults "vxuj-8kew") = PExit 1 [msg]) /\
  (forall o rest, ~ In o known_options ->
     parse_options (["--format"; "JSON"] ++ o :: rest) (defaults "vxuj-8kew") =
       PExit 1 ["Error: Unknown option " ++ o]).
Proof.
  apply (parse_errors_after_valid_prefix _ _ (set_format (defaults "vxuj-8kew") json)).
  reflexivity.
Defined.

Lemma distinct_options_commute_witness :
  parse_options (["--no-confirm"] ++ ["--where"; "year>2020"; "--limit"; "10"])
    (defaults "vxuj-8kew") =
  parse_options (["--no-confirm"] ++ ["--limit"; "10"; "--where"; "year>2020"])
    (defaults "vxuj-8kew").
Proof.
  apply (distinct_options_commute _ _ (set_noConfirm (defaults "vxuj-8kew"))
           "--where" "year>2020" "--limit" "10" []);
    [reflexivity | cbn; tauto | cbn; tauto | discriminate].
Defined.

Lemma default_output_path_witness :
  match parseArgs fresh_fs ["vxuj-8kew"; "--output-dir"; "out"; "--format"; "json"] with
  | Parsed dirs p =>
      p = set_output (set_format (set_outputDir (defaults "vxuj-8kew") "out") json)
            ("out" ++ "/" ++ "vxuj-8kew" ++ "." ++ "json") /\ dirs = ["out"]
  | Threw e => False /\ None = Some e
  | Exited _ _ => False
  end.
Proof.
  apply (default_output_path fresh_fs "vxuj-8kew" ["--output-dir"; "out"; "--format"; "json"]
           (set_format (set_outputDir (defaults "vxuj-8kew") "out") json));
    reflexivity.
Defined.

End CliFacts.
